(** * DataLik: the table-admin and metrics layer, embedded and verified

    The development follows the repository's files:
    - [Kpi]       utils/data_processor.py  ([get_kpi_metrics]);
    - [Py]        the fragment of Python the other modules rely on
                  (values, truthiness, exceptions, [try]/[except]);
    - [Sql]       the relational engine behind [session.execute];
    - [Db]        utils/database.py        ([DatabaseManager]);
    - [App]       app.py (how the dashboard reads the metrics);
    - [Processor] utils/data_processor.py  ([filter_data_by_date]);
    - [Quality]   utils/data_processor.py  ([validate_data]);
    - [Seed]      utils/database.py        ([insert_sample_data]);
    - [Dashboard] app.py (the overview's inventory card);
    - [Admin]     modules/database_admin.py ([show_database_admin],
                  [show_database_backup]).

    Numbers: Python [int] and [float] values are both carried as exact
    rationals ([Q]); floating-point rounding is not modelled. *)

From Stdlib Require Import ZArith QArith Lqa List Ascii String.
From stdpp Require Import base option list gmap strings pretty.

Local Open Scope string_scope.
Local Open Scope Z_scope.

(* ===================================================================== *)
(** ** utils/data_processor.py *)
(* ===================================================================== *)

Module Kpi.

(** A transaction-like row.  A field is meaningful only when the column
    of that name is listed in the frame's [columns]. *)
Record Row := mkRow {
  date : Z;          (* pandas Timestamp: nanoseconds since the epoch *)
  revenue : Q;
  customer : option string     (* [None]: a missing value (None, NaN) *)
}.

(** A [pandas.DataFrame] whose columns are well typed: every date is a
    Timestamp and every revenue a number.  A customer may be missing. *)
Record DataFrame := mkFrame {
  columns : list string;
  rows : list Row
}.

(** [data.empty]: some axis has length zero. *)
Definition empty (data : DataFrame) : bool :=
  (length (rows data) =? 0)%nat || (length (columns data) =? 0)%nat.

(** ['name' in data.columns] *)
Definition has_column (name : string) (data : DataFrame) : bool :=
  bool_decide (name ∈ columns data).

(** [data[mask]]: same columns, selected rows. *)
Definition select (mask : Row -> bool) (data : DataFrame) : DataFrame :=
  mkFrame (columns data) (List.filter mask (rows data)).

(** [data['revenue'].sum()] *)
Definition revenue_sum (data : DataFrame) : Q :=
  fold_left (fun acc r => (acc + revenue r)%Q) (rows data) 0%Q.

(** [len(data)] *)
Definition len (data : DataFrame) : Z := Z.of_nat (length (rows data)).

(** [data['customer'].nunique()]: the distinct values, missing ones
    left out. *)
Definition customer_nunique (data : DataFrame) : Z :=
  Z.of_nat (length (remove_dups (omap customer (rows data)))).

(** [data['date'].max()]; [None] is pandas' NaT, the maximum of no dates. *)
Definition date_max (data : DataFrame) : option Z :=
  match map date (rows data) with
  | [] => None
  | d :: ds => Some (fold_left Z.max ds d)
  end.

(** [timedelta(days=n)] in nanoseconds. *)
Definition timedelta_days (n : Z) : Z := n * 86400000000000.

(** [x > 0] on numbers. *)
Definition gt0 (x : Q) : bool :=
  match (0 ?= x)%Q with Lt => true | _ => false end.

(** The conditional expression the source repeats for each growth rate:
    [((current - previous) / previous * 100) if previous > 0 else 0]. *)
Definition growth (current previous : Q) : Q :=
  if gt0 previous then ((current - previous) / previous * 100)%Q else 0%Q.

(** [a / n if n > 0 else 0] *)
Definition ratio_or_zero (a n : Q) : Q :=
  if gt0 n then (a / n)%Q else 0%Q.

(** The two 30-day windows, relative to the latest date of the data.
    A comparison against NaT is false. *)
Definition current_start (data : DataFrame) : option Z :=
  (fun latest_date => latest_date - timedelta_days 30) <$> date_max data.

Definition previous_start (data : DataFrame) : option Z :=
  (fun start => start - timedelta_days 30) <$> current_start data.

Definition current_data (data : DataFrame) : DataFrame :=
  select (fun r => match current_start data with
                   | Some start => start <=? date r
                   | None => false
                   end) data.

Definition previous_data (data : DataFrame) : DataFrame :=
  select (fun r => match previous_start data, current_start data with
                   | Some pstart, Some cstart =>
                       (pstart <=? date r) && (date r <? cstart)
                   | _, _ => false
                   end) data.

(** [part['revenue'].sum() if 'revenue' in part.columns else 0] *)
Definition period_revenue (part : DataFrame) : Q :=
  if has_column "revenue" part then revenue_sum part else 0%Q.

Definition zero_metrics : gmap string Q :=
  <["aov_growth" := 0%Q]>
  (<["customer_growth" := 0%Q]>
  (<["order_growth" := 0%Q]>
  (<["revenue_growth" := 0%Q]>
  (<["avg_order_value" := 0%Q]>
  (<["active_customers" := 0%Q]>
  (<["total_orders" := 0%Q]>
  (<["total_revenue" := 0%Q]> ∅))))))).

(** The mapping [get_kpi_metrics] computes.  Whether a call gets as far as
    returning it is the matter of [call_get_kpi_metrics] below. *)
Definition get_kpi_metrics (data : DataFrame) : gmap string Q :=
  if empty data then zero_metrics
  else
    (* Current period metrics *)
    let total_revenue :=
      if has_column "revenue" data then revenue_sum data else 0%Q in
    let metrics : gmap string Q := <["total_revenue" := total_revenue]> ∅ in
    let total_orders := inject_Z (len data) in
    let metrics := <["total_orders" := total_orders]> metrics in
    let active_customers :=
      if has_column "customer" data
      then inject_Z (customer_nunique data) else 0%Q in
    let metrics := <["active_customers" := active_customers]> metrics in
    let metrics :=
      <["avg_order_value" := ratio_or_zero total_revenue total_orders]>
        metrics in
    (* Growth rates: last 30 days against the 30 days before *)
    if has_column "date" data then
      let current_data := current_data data in
      let previous_data := previous_data data in
      if negb (empty previous_data) && negb (empty current_data) then
        let current_revenue := period_revenue current_data in
        let previous_revenue := period_revenue previous_data in
        let metrics :=
          <["revenue_growth" := growth current_revenue previous_revenue]>
            metrics in
        let current_orders := inject_Z (len current_data) in
        let previous_orders := inject_Z (len previous_data) in
        let metrics :=
          <["order_growth" := growth current_orders previous_orders]>
            metrics in
        let metrics :=
          if has_column "customer" data then
            let current_customers :=
              inject_Z (customer_nunique current_data) in
            let previous_customers :=
              inject_Z (customer_nunique previous_data) in
            <["customer_growth" :=
                growth current_customers previous_customers]> metrics
          else <["customer_growth" := 0%Q]> metrics in
        let current_aov := ratio_or_zero current_revenue current_orders in
        let previous_aov :=
          ratio_or_zero previous_revenue previous_orders in
        <["aov_growth" := growth current_aov previous_aov]> metrics
      else
        <["aov_growth" := 0%Q]>
        (<["customer_growth" := 0%Q]>
        (<["order_growth" := 0%Q]>
        (<["revenue_growth" := 0%Q]> metrics)))
    else
      <["aov_growth" := 0%Q]>
      (<["customer_growth" := 0%Q]>
      (<["order_growth" := 0%Q]>
      (<["revenue_growth" := 0%Q]> metrics))).

(** The aggregates the growth rates compare, per period. *)
Definition period_orders (part : DataFrame) : Q := inject_Z (len part).

Definition period_customers (part : DataFrame) : Q :=
  if has_column "customer" part
  then inject_Z (customer_nunique part) else 0%Q.

Definition period_aov (part : DataFrame) : Q :=
  ratio_or_zero (period_revenue part) (period_orders part).

(** pandas keeps a [Timestamp] in 64 bits of nanoseconds, from
    [timestamp_min] (1677-09-21) to [timestamp_max] (2262-04-11);
    arithmetic that leaves the range raises. *)
Definition timestamp_min : Z := - (2 ^ 63 - 1).
Definition timestamp_max : Z := 2 ^ 63 - 1.

Definition in_bounds (t : Z) : bool :=
  (timestamp_min <=? t) && (t <=? timestamp_max).

(** [t - timedelta(days=n)]; [None] when pandas raises. *)
Definition minus_days (t n : Z) : option Z :=
  let r := t - timedelta_days n in
  if in_bounds r then Some r else None.

(** A call of [get_kpi_metrics] as pandas runs it, on a frame of
    Timestamps within bounds.  The two window starts (lines 201 and 205)
    are computed whenever the frame is not empty and has a date column;
    when one of them leaves the range of a Timestamp the call raises
    ([None]); otherwise it returns the mapping above. *)
Definition call_get_kpi_metrics (data : DataFrame)
  : option (gmap string Q) :=
  if empty data then Some (get_kpi_metrics data)
  else if has_column "date" data then
    match date_max data with
    | Some latest_date =>
        match minus_days latest_date 30 with
        | Some current_start =>
            match minus_days current_start 30 with
            | Some previous_start => Some (get_kpi_metrics data)
            | None => None
            end
        | None => None
        end
    | None => Some (get_kpi_metrics data)
    end
  else Some (get_kpi_metrics data).

End Kpi.

(* ===================================================================== *)
(** ** The Python fragment used by the database layer *)
(* ===================================================================== *)

Module Py.

(** Scalar values travelling between the driver, pandas and [json]. *)
Inductive value :=
| VNone
| VBool (b : bool)
| VInt (n : Z)
| VFloat (x : Q)
| VStr (s : string)
| VDate (t : Z)        (* [datetime.date] / [Timestamp] *)
| VDecimal (x : Q).    (* [decimal.Decimal] *)

(** Values [json.dumps] writes without calling its [default] hook. *)
Definition json_native (v : value) : bool :=
  match v with
  | VDate _ | VDecimal _ => false
  | _ => true
  end.

Definition is_zero (x : Q) : bool := Qeq_bool x 0.

(** Truth value of an object, as tested by [if x:] and [x or y]. *)
Definition truthy (v : value) : bool :=
  match v with
  | VNone => false
  | VBool b => b
  | VInt n => negb (n =? 0)
  | VFloat x => negb (is_zero x)
  | VStr s => negb (String.length s =? 0)%nat
  | VDate _ => true
  | VDecimal x => negb (is_zero x)
  end.

(** [a or b] *)
Definition or_else (a b : value) : value := if truthy a then a else b.

(** [float(v)]; [None] stands for the [TypeError]/[ValueError] raised on
    values that are not numbers (numeric strings are not modelled). *)
Definition float (v : value) : option value :=
  match v with
  | VBool b => Some (VFloat (if b then 1 else 0))
  | VInt n => Some (VFloat (inject_Z n))
  | VFloat x => Some (VFloat x)
  | VDecimal x => Some (VFloat x)
  | VNone | VStr _ | VDate _ => None
  end.

(** Structured data: what [json.loads] returns and [json.dumps] takes. *)
#[warnings="-register-all"]
Inductive json :=
| JVal (v : value)
| JArr (items : list json)
| JObj (members : list (string * json)).

Definition type_name (j : json) : string :=
  match j with
  | JVal VNone => "NoneType"
  | JVal (VBool _) => "bool"
  | JVal (VInt _) => "int"
  | JVal (VFloat _) => "float"
  | JVal (VStr _) => "str"
  | JVal (VDate _) => "date"
  | JVal (VDecimal _) => "Decimal"
  | JArr _ => "list"
  | JObj _ => "dict"
  end.

(** [sep.join(parts)] *)
Fixpoint join (sep : string) (parts : list string) : string :=
  match parts with
  | [] => ""
  | [p] => p
  | p :: rest => p ++ sep ++ join sep rest
  end.

(** A dict keeps one entry per key, in insertion order: [d[k] = v]. *)
Fixpoint dict_set {A} (k : string) (v : A) (d : list (string * A))
  : list (string * A) :=
  match d with
  | [] => [(k, v)]
  | (k', v') :: d' =>
      if String.eqb k k' then (k, v) :: d' else (k', v') :: dict_set k v d'
  end.

(** [d.get(k)] *)
Fixpoint dict_get {A} (k : string) (d : list (string * A)) : option A :=
  match d with
  | [] => None
  | (k', v) :: d' => if String.eqb k k' then Some v else dict_get k d'
  end.

(** Computations over a mutable state [S] that return or raise. *)
Inductive outcome (A : Type) :=
| Returned (a : A)
| Raised (e : string).
Arguments Returned {A} a.
Arguments Raised {A} e.

Definition M (S A : Type) : Type := S -> outcome A * S.

Definition ret {S A} (a : A) : M S A := fun s => (Returned a, s).

Definition raise {S A} (e : string) : M S A := fun s => (Raised e, s).

Definition bind {S A B} (m : M S A) (k : A -> M S B) : M S B :=
  fun s =>
    match m s with
    | (Returned a, s') => k a s'
    | (Raised e, s') => (Raised e, s')
    end.

(** [try: body / except Exception as e: handler(e)].  Whatever the body
    did to the state before raising stays done. *)
Definition try_except {S A} (body : M S A) (handler : string -> M S A)
  : M S A :=
  fun s =>
    match body s with
    | (Returned a, s') => (Returned a, s')
    | (Raised e, s') => handler e s'
    end.

(** [for x in xs: body(x)] threading a loop-carried value. *)
Fixpoint for_each {S A B} (xs : list A) (body : A -> B -> M S B) (acc : B)
  : M S B :=
  match xs with
  | [] => ret acc
  | x :: rest => bind (body x acc) (for_each rest body)
  end.

End Py.

Notation "'let!' x ':=' c1 'in' c2" := (Py.bind c1 (fun x => c2))
  (at level 10, x name, c1 at level 100, c2 at level 200).
Notation "'do!' c1 'in' c2" := (Py.bind c1 (fun _ => c2))
  (at level 10, c1 at level 100, c2 at level 200).

(* ===================================================================== *)
(** ** The relational engine behind [session.execute] *)
(* ===================================================================== *)

(** The engine is not part of the repository; the application reaches it
    through SQLAlchemy's [session.execute(text(query), params)].  What the
    code relies on is fixed here: a table is a list of rows under named
    columns, scanned in a fixed order as long as nobody writes; cells are
    untyped scalars; a statement either fails with a message and changes
    nothing, or succeeds.  Column types, defaults, keys and constraints are
    not modelled: a failure they would cause is a failure the caller of
    [sql_engine] supplies through [rejects].  After a failed statement a
    PostgreSQL session refuses every statement until it is rolled back;
    the model does not keep that state, so a statement that follows a
    failed one in the same session is run as if the session had been
    rolled back. *)

Module Sql.
Import Py.

Record Table := mkTable {
  columns : list string;
  rows : list (list value)     (* in the engine's scan order *)
}.

Abbreviation Database := (gmap string Table).

(** What [session.execute] hands back: [keys()] and [fetchall()]. *)
Record ResultSet := mkResult {
  keys : list string;
  fetchall : list (list value)
}.

Definition no_rows : ResultSet := mkResult [] [].

(** [result.scalar()]: first column of the first row, else [None]. *)
Definition scalar (r : ResultSet) : value :=
  match fetchall r with
  | (v :: _) :: _ => v
  | _ => VNone
  end.

Inductive Expr :=
| Col (name : string)
| StrLit (s : string)
| IntLit (n : Z).

Inductive Cond :=
| CEq (a b : Expr)
| CLe (a b : Expr)
| CIn (a : Expr) (choices : list string).

Inductive Agg :=
| CountStar
| Sum (column : string).

Record Limit := mkLimit { limit_rows : Z; limit_offset : option Z }.

(** The statements the application sends.  [Raw] is any other text typed
    into the SQL console. *)
Inductive Stmt :=
| SelectAll (table : string) (limit : option Limit)
| SelectAgg (agg : Agg) (table : string) (filter : Cond)
| DeleteFrom (table : string)
| InsertInto (table : string) (columns : list string) (placeholders : nat)
| Raw (sql : string).

(** *** The statement's text, as the source writes it *)

Definition expr_text (e : Expr) : string :=
  match e with
  | Col c => c
  | StrLit s => "'" ++ s ++ "'"
  | IntLit n => pretty n
  end.

Definition cond_text (c : Cond) : string :=
  match c with
  | CEq a b => expr_text a ++ " = " ++ expr_text b
  | CLe a b => expr_text a ++ " <= " ++ expr_text b
  | CIn a choices =>
      expr_text a ++ " IN (" ++
      join ", " (map (fun s => "'" ++ s ++ "'") choices) ++ ")"
  end.

Definition agg_text (a : Agg) : string :=
  match a with
  | CountStar => "COUNT(*)"
  | Sum c => "SUM(" ++ c ++ ")"
  end.

Definition limit_text (l : Limit) : string :=
  match limit_offset l with
  | None => pretty (limit_rows l)
  | Some off => pretty (limit_rows l) ++ " OFFSET " ++ pretty off
  end.

Definition sql_text (q : Stmt) : string :=
  match q with
  | SelectAll t None => "SELECT * FROM " ++ t
  | SelectAll t (Some l) => "SELECT * FROM " ++ t ++ " LIMIT " ++ limit_text l
  | SelectAgg a t c =>
      "SELECT " ++ agg_text a ++ " FROM " ++ t ++ " WHERE " ++ cond_text c
  | DeleteFrom t => "DELETE FROM " ++ t
  | InsertInto t cols n =>
      "INSERT INTO " ++ t ++ " (" ++ join ", " cols ++ ") VALUES (" ++
      join ", " (replicate n "%s") ++ ")"
  | Raw sql => sql
  end.

(** *** Evaluation *)

(** The cell of [row] under column [c]. *)
Fixpoint cell (cols : list string) (row : list value) (c : string)
  : option value :=
  match cols, row with
  | c' :: cols', v :: row' =>
      if String.eqb c c' then Some v else cell cols' row' c
  | _, _ => None
  end.

Definition numeric (v : value) : option Q :=
  match v with
  | VInt n => Some (inject_Z n)
  | VFloat x => Some x
  | VDecimal x => Some x
  | _ => None
  end.

(** SQL's three truth values, plus failure of the statement. *)
Inductive truth := TTrue | TFalse | TUnknown | TError.

Definition of_bool (b : bool) : truth := if b then TTrue else TFalse.

Definition eval_expr (cols : list string) (row : list value) (e : Expr)
  : option value :=
  match e with
  | Col c => cell cols row c
  | StrLit s => Some (VStr s)
  | IntLit n => Some (VInt n)
  end.

Definition compare_eq (x y : value) : truth :=
  match x, y with
  | VNone, _ | _, VNone => TUnknown
  | VStr s, VStr s' => of_bool (String.eqb s s')
  | VBool b, VBool b' => of_bool (Bool.eqb b b')
  | VDate t, VDate t' => of_bool (t =? t')
  | _, _ =>
      match numeric x, numeric y with
      | Some p, Some q => of_bool (Qeq_bool p q)
      | _, _ => TError
      end
  end.

(** Ordering is evaluated on numbers and on dates; on other operands the
    statement fails. *)
Definition compare_le (x y : value) : truth :=
  match x, y with
  | VNone, _ | _, VNone => TUnknown
  | VDate t, VDate t' => of_bool (t <=? t')
  | _, _ =>
      match numeric x, numeric y with
      | Some p, Some q => of_bool (Qle_bool p q)
      | _, _ => TError
      end
  end.

Definition eval_cond (cols : list string) (row : list value) (c : Cond)
  : truth :=
  match c with
  | CEq a b =>
      match eval_expr cols row a, eval_expr cols row b with
      | Some x, Some y => compare_eq x y
      | _, _ => TError
      end
  | CLe a b =>
      match eval_expr cols row a, eval_expr cols row b with
      | Some x, Some y => compare_le x y
      | _, _ => TError
      end
  | CIn a choices =>
      match eval_expr cols row a with
      | Some VNone => TUnknown
      | Some (VStr s) => of_bool (existsb (String.eqb s) choices)
      | _ => TError
      end
  end.

Definition is_true (t : truth) : bool :=
  match t with TTrue => true | _ => false end.

Definition is_error (t : truth) : bool :=
  match t with TError => true | _ => false end.

(** [SUM] skips NULLs and is NULL when nothing is left; [None] when a
    cell is not a number. *)
Fixpoint sum_cells (vs : list value) (acc : option Q) : option value :=
  match vs with
  | [] => Some (match acc with Some x => VDecimal x | None => VNone end)
  | VNone :: vs' => sum_cells vs' acc
  | v :: vs' =>
      match numeric v with
      | Some x =>
          sum_cells vs' (Some (match acc with
                               | Some a => (a + x)%Q
                               | None => x
                               end))
      | None => None
      end
  end.

Definition expr_columns (e : Expr) : list string :=
  match e with Col c => [c] | _ => [] end.

(** The columns a query names; all of them must exist in the table. *)
Definition named_columns (a : Agg) (c : Cond) : list string :=
  (match a with CountStar => [] | Sum col => [col] end ++
   match c with
   | CEq x y | CLe x y => expr_columns x ++ expr_columns y
   | CIn x _ => expr_columns x
   end)%list.

Definition Engine : Type :=
  Stmt -> list json -> Database -> string + (ResultSet * Database).

Section Engine.
(** Failures the model of the engine has no cause for: constraint
    violations, lost connections, missing privileges. *)
Variable rejects : Stmt -> Database -> option string.
(** The engine on statements outside the modelled fragment. *)
Variable other :
  string -> Database -> string + (ResultSet * Database).

Definition missing (t : string) : string :=
  "relation " ++ t ++ " does not exist".

Definition select_all (t : string) (limit : option Limit) (db : Database)
  : string + (ResultSet * Database) :=
  match db !! t with
  | None => inl (missing t)
  | Some tbl =>
      match limit with
      | None => inr (mkResult (columns tbl) (rows tbl), db)
      | Some l =>
          let off := default 0 (limit_offset l) in
          if limit_rows l <? 0 then inl "LIMIT must not be negative"
          else if off <? 0 then inl "OFFSET must not be negative"
          else
            inr (mkResult (columns tbl)
                   (take (Z.to_nat (limit_rows l))
                      (drop (Z.to_nat off) (rows tbl))), db)
      end
  end.

Definition select_agg (a : Agg) (t : string) (c : Cond) (db : Database)
  : string + (ResultSet * Database) :=
  match db !! t with
  | None => inl (missing t)
  | Some tbl =>
      let verdicts := map (fun r => eval_cond (columns tbl) r c) (rows tbl) in
      if negb (bool_decide (named_columns a c ⊆ columns tbl))
      then inl "column does not exist"
      else if existsb is_error verdicts
      then inl "cannot evaluate WHERE clause"
      else
        let hits :=
          List.filter (fun r => is_true (eval_cond (columns tbl) r c))
            (rows tbl) in
        match a with
        | CountStar =>
            inr (mkResult ["count"] [[VInt (Z.of_nat (length hits))]], db)
        | Sum col =>
            match mapM (fun r => cell (columns tbl) r col) hits with
            | None => inl ("column " ++ col ++ " does not exist")
            | Some cells =>
                match sum_cells cells None with
                | None => inl "function sum does not apply"
                | Some v => inr (mkResult ["sum"] [[v]], db)
                end
            end
        end
  end.

Definition delete_from (t : string) (db : Database)
  : string + (ResultSet * Database) :=
  match db !! t with
  | None => inl (missing t)
  | Some tbl => inr (no_rows, <[t := mkTable (columns tbl) []]> db)
  end.

(** An [INSERT] whose values are [%s] placeholders, with the parameters
    it is executed with.  SQLAlchemy's [text()] binds named parameters
    ([:name]) and takes them as a dict or a list of dicts: a list of plain
    values is refused before anything is sent, and without such a list the
    placeholders reach the server as they are and do not parse.  No such
    statement adds a row. *)
Definition insert_into (t : string) (cols : list string) (n : nat)
    (params : list json) (db : Database)
  : string + (ResultSet * Database) :=
  match params with
  | [] | JObj _ :: _ =>
      if (n =? 0)%nat then inl "syntax error at or near )"
      else inl "syntax error at or near %"
  | _ :: _ => inl "List argument must consist only of dictionaries"
  end.

Definition sql_engine : Engine := fun q params db =>
  match q with
  | Raw sql => other sql db
  | _ =>
      match rejects q db with
      | Some e => inl e
      | None =>
          match q with
          | SelectAll t limit => select_all t limit db
          | SelectAgg a t c => select_agg a t c db
          | DeleteFrom t => delete_from t db
          | InsertInto t cols n => insert_into t cols n params db
          | Raw sql => other sql db
          end
      end
  end.
End Engine.

End Sql.

(* ===================================================================== *)
(** ** utils/database.py: [DatabaseManager] *)
(* ===================================================================== *)

Module Db.
Import Py Sql.

(** What Streamlit shows the operator. *)
Inductive UiEvent :=
| StError (msg : string)
| StSuccess (msg : string)
| StWarning (msg : string)
| StInfo (msg : string).

(** The database as committed, the open transaction's view of it, and
    the messages displayed so far. *)
Record World := mkWorld {
  committed : Database;
  working : Database;
  ui : list UiEvent
}.

Record DataFrame := mkFrame {
  df_columns : list string;
  df_rows : list (list value)
}.

(** [pd.DataFrame()] *)
Definition empty_frame : DataFrame := mkFrame [] [].

(** The [limit] argument of [get_table_data] as its callers pass it. *)
Inductive LimitArg :=
| LimitNone                               (* [None], the default *)
| LimitInt (n : Z)                        (* a number *)
| LimitText (page_size offset : Z).       (* f"{page_size} OFFSET {offset}" *)

(** [if limit:] *)
Definition limit_truthy (limit : LimitArg) : bool :=
  match limit with
  | LimitNone => false
  | LimitInt n => negb (n =? 0)
  | LimitText _ _ => true
  end.

Definition limit_clause (limit : LimitArg) : option Limit :=
  match limit with
  | LimitNone => None
  | LimitInt n => Some (mkLimit n None)
  | LimitText size off => Some (mkLimit size (Some off))
  end.

(** [query = f"SELECT * FROM {table_name}"], then
    [if limit: query += f" LIMIT {limit}"]. *)
Definition table_query (table_name : string) (limit : LimitArg) : Stmt :=
  if limit_truthy limit then SelectAll table_name (limit_clause limit)
  else SelectAll table_name None.

(** The five aggregate queries of [get_business_metrics]. *)
Definition q_active_customers : Stmt :=
  SelectAgg CountStar "customers" (CEq (Col "status") (StrLit "Active")).
Definition q_total_revenue : Stmt :=
  SelectAgg (Sum "amount") "invoices" (CEq (Col "status") (StrLit "Paid")).
Definition q_low_stock_items : Stmt :=
  SelectAgg CountStar "inventory"
    (CLe (Col "current_stock") (Col "reorder_point")).
Definition q_total_employees : Stmt :=
  SelectAgg CountStar "employees" (CEq (Col "status") (StrLit "Active")).
Definition q_active_projects : Stmt :=
  SelectAgg CountStar "projects"
    (CIn (Col "status") ["Planning"; "In Progress"]).

Definition metric_queries : list Stmt :=
  [q_active_customers; q_total_revenue; q_low_stock_items;
   q_total_employees; q_active_projects].

Definition st_error (msg : string) : M World unit :=
  fun w => (Returned tt, mkWorld (committed w) (working w) (ui w ++ [StError msg])).

Definition st_success (msg : string) : M World unit :=
  fun w => (Returned tt, mkWorld (committed w) (working w) (ui w ++ [StSuccess msg])).

Definition st_warning (msg : string) : M World unit :=
  fun w => (Returned tt, mkWorld (committed w) (working w) (ui w ++ [StWarning msg])).

Definition st_info (msg : string) : M World unit :=
  fun w => (Returned tt, mkWorld (committed w) (working w) (ui w ++ [StInfo msg])).

(** [self.session.commit()]; a commit is taken not to fail. *)
Definition session_commit : M World unit :=
  fun w => (Returned tt, mkWorld (working w) (working w) (ui w)).

(** [self.session.rollback()] *)
Definition session_rollback : M World unit :=
  fun w => (Returned tt, mkWorld (committed w) (committed w) (ui w)).

(** [float(x)] as a statement that may raise. *)
Definition py_float (v : value) : M World value :=
  match float v with
  | Some x => ret x
  | None => raise "float() argument must be a string or a real number"
  end.

Section Manager.
Variable run : Engine.

(** [self.session.execute(text(query), params)]: the statement runs
    inside the open transaction.  A statement that fails raises and leaves
    the data as it was; that the session then refuses further statements
    until it is rolled back is not kept (see the remark on the engine). *)
Definition session_execute (query : Stmt) (params : list json)
  : M World ResultSet :=
  fun w =>
    match run query params (working w) with
    | inl e => (Raised e, w)
    | inr (result, db) => (Returned result, mkWorld (committed w) db (ui w))
    end.

Definition get_table_data (table_name : string) (limit : LimitArg)
  : M World DataFrame :=
  try_except
    (let query := table_query table_name limit in
     let! result := session_execute query [] in
     let columns := keys result in
     let data := fetchall result in
     ret (mkFrame columns data))
    (fun e =>
       do! st_error ("Error fetching data from " ++ table_name ++ ": " ++ e) in
       ret empty_frame).

(** [params] is [None] by default; [if params:] also skips an empty
    sequence. *)
Definition execute_query (query : Stmt) (params : option (list json))
  : M World (option ResultSet) :=
  try_except
    (let! result :=
       match params with
       | Some (p :: ps) => session_execute query (p :: ps)
       | _ => session_execute query []
       end in
     do! session_commit in
     ret (Some result))
    (fun e =>
       do! session_rollback in
       do! st_error ("Query execution error: " ++ e) in
       ret None).

Definition get_business_metrics : M World (gmap string value) :=
  try_except
    (let metrics : gmap string value := ∅ in
     (* Customer metrics *)
     let! result := session_execute q_active_customers [] in
     let metrics :=
       <["active_customers" := or_else (scalar result) (VInt 0)]> metrics in
     (* Revenue metrics *)
     let! result := session_execute q_total_revenue [] in
     let! revenue := py_float (or_else (scalar result) (VInt 0)) in
     let metrics := <["total_revenue" := revenue]> metrics in
     (* Inventory metrics *)
     let! result := session_execute q_low_stock_items [] in
     let metrics :=
       <["low_stock_items" := or_else (scalar result) (VInt 0)]> metrics in
     (* Employee metrics *)
     let! result := session_execute q_total_employees [] in
     let metrics :=
       <["total_employees" := or_else (scalar result) (VInt 0)]> metrics in
     (* Project metrics *)
     let! result := session_execute q_active_projects [] in
     let metrics :=
       <["active_projects" := or_else (scalar result) (VInt 0)]> metrics in
     ret metrics)
    (fun e =>
       do! st_error ("Error getting business metrics: " ++ e) in
       ret ∅).

(** [with get_database_connection() as db: body]: a new session sees the
    committed database; [__exit__] closes it, dropping whatever was not
    committed, and lets an exception of the body pass. *)
Definition with_connection {A} (body : M World A) : M World A :=
  fun w =>
    let '(r, w') := body (mkWorld (committed w) (committed w) (ui w)) in
    (r, mkWorld (committed w') (committed w') (ui w')).
End Manager.

(** A world with nothing pending and nothing displayed. *)
Definition at_rest (db : Database) : World := mkWorld db db [].

End Db.

(* ===================================================================== *)
(** ** app.py: the dashboard's reading of the metrics *)
(* ===================================================================== *)

Module App.
Import Py.

(** [metrics.get(key, 0)] *)
Definition shown (metrics : gmap string value) (key : string) : value :=
  default (VInt 0) (metrics !! key).

End App.

(* ===================================================================== *)
(** ** utils/data_processor.py: the date filter *)
(* ===================================================================== *)

Module Processor.
Import Kpi.

(** [data[(data['date'] >= start_date) & (data['date'] <= end_date)]], and
    the frame as it is when it has no date column. *)
Definition filter_data_by_date (data : DataFrame) (start_date end_date : Z)
  : DataFrame :=
  if negb (has_column "date" data) then data
  else
    select (fun r => (start_date <=? date r) && (date r <=? end_date)) data.

End Processor.

(* ===================================================================== *)
(** ** utils/data_processor.py: data validation *)
(* ===================================================================== *)

Module Quality.

(** The dict [validate_data] returns. *)
Record Results := mkResults {
  missing_values : Z;
  duplicates : Z;
  quality_score : Q;
  issues : list string
}.

Section Validate.
(** What pandas decides about cells and columns. *)
Variable cell : Type.
(** [isnull]: NaN, None, NaT. *)
Variable isnull : cell -> bool.
(** Equality of two cells, as [duplicated] compares rows. *)
Variable same : cell -> cell -> bool.
(** The column has dtype [object] and [pd.to_numeric(column, errors='raise')]
    accepts it. *)
Variable numeric_text : list cell -> bool.
(** [f"{x:.1f}"] *)
Variable fixed1 : Q -> string.

(** A frame of any cells, row by row; every row has a cell per name. *)
Record Frame := mkFrame {
  names : list string;
  records : list (list cell)
}.

(** [len(df)] *)
Definition len (df : Frame) : Z := Z.of_nat (length (records df)).

(** [df.isnull().sum().sum()] *)
Definition isnull_count (df : Frame) : Z :=
  Z.of_nat (length (List.filter isnull (concat (records df)))).

Fixpoint same_row (a b : list cell) : bool :=
  match a, b with
  | [], [] => true
  | x :: a', y :: b' => same x y && same_row a' b'
  | _, _ => false
  end.

(** [df.duplicated()]: a row is marked when an earlier row equals it. *)
Fixpoint duplicated (earlier rest : list (list cell)) : list bool :=
  match rest with
  | [] => []
  | row :: rest' =>
      existsb (same_row row) earlier :: duplicated (earlier ++ [row]) rest'
  end.

(** [df.duplicated().sum()] *)
Definition duplicated_count (df : Frame) : Z :=
  Z.of_nat (length (List.filter (fun marked : bool => marked)
                      (duplicated [] (records df)))).

(** [df[col]], by the position of the name. *)
Definition column (df : Frame) (i : nat) : list cell :=
  omap (fun row => row !! i) (records df).

Definition validate_data (df : Frame) : Results :=
  let quality_score := 100%Q in
  let issues : list string := [] in
  (* Check for missing values *)
  let missing_count := isnull_count df in
  let '(quality_score, issues) :=
    if 0 <? missing_count then
      let missing_percentage :=
        (inject_Z missing_count
         / inject_Z (len df * Z.of_nat (length (names df))) * 100)%Q in
      ((quality_score - missing_percentage)%Q,
       (issues ++ [("Found " ++ pretty missing_count ++ " missing values ("
                    ++ fixed1 missing_percentage ++ "% of data)")%string])%list)
    else (quality_score, issues) in
  (* Check for duplicates *)
  let duplicate_count := duplicated_count df in
  let '(quality_score, issues) :=
    if 0 <? duplicate_count then
      let duplicate_percentage :=
        (inject_Z duplicate_count / inject_Z (len df) * 100)%Q in
      ((quality_score - duplicate_percentage)%Q,
       (issues ++ [("Found " ++ pretty duplicate_count ++ " duplicate rows ("
                    ++ fixed1 duplicate_percentage ++ "%)")%string])%list)
    else (quality_score, issues) in
  (* Check for data type consistency *)
  let issues :=
    fold_left
      (fun issues '(i, col) =>
         if numeric_text (column df i)
         then (issues ++ [("Column '" ++ col
                           ++ "' appears to be numeric but stored as text")%string])%list
         else issues)
      (imap pair (names df)) issues in
  (* Ensure quality score doesn't go below 0 *)
  mkResults missing_count duplicate_count
    (if Kpi.gt0 quality_score then quality_score else 0%Q) issues.
End Validate.

Arguments mkFrame {cell} _ _.
Arguments names {cell} _.
Arguments records {cell} _.

End Quality.

(* ===================================================================== *)
(** ** utils/database.py: the sample data *)
(* ===================================================================== *)

Module Seed.
Import Py Sql Db.

(** The session, and what the process has printed. *)
Record Process := mkProcess {
  world : World;
  stdout : list string
}.

(** [print(line)] *)
Definition print (line : string) : M Process unit :=
  fun p => (Returned tt, mkProcess (world p) (stdout p ++ [line])).

(** A computation on the session, run by the process. *)
Definition in_session {A} (m : M World A) : M Process A :=
  fun p => let '(r, w) := m (world p) in (r, mkProcess w (stdout p)).

(** [v > 0] where it is defined. *)
Definition positive (v : value) : option bool :=
  match v with
  | VBool b => Some b
  | VInt n => Some (0 <? n)
  | VFloat x | VDecimal x => Some (Kpi.gt0 x)
  | VNone | VStr _ | VDate _ => None
  end.

(** The type's name as a [TypeError] spells it. *)
Definition operand_type (v : value) : string :=
  match v with
  | VDate _ => "datetime.date"
  | VDecimal _ => "decimal.Decimal"
  | _ => type_name (JVal v)
  end.

(** [v > 0] as a statement: comparing [None], a string or a date with a
    number raises a [TypeError]. *)
Definition gt_zero (v : value) : M Process bool :=
  match positive v with
  | Some b => ret b
  | None =>
      raise ("'>' not supported between instances of '"
             ++ operand_type v ++ "' and 'int'")
  end.

Definition newline : string := String "010"%char "".

(** A text written over several lines. *)
Definition lines (ls : list string) : string := join newline ls.

(** [{f'p{i+1}': row[i] for i in range(len(row))}] *)
Definition named (row : list value) : list (string * json) :=
  imap (fun i v => ("p" ++ pretty (i + 1)%nat, JVal v)) row.

Definition customers_query : string :=
  lines
    ["";
     "                INSERT INTO customers (customer_id, name, email, phone, company, industry, status, source, total_value, notes)";
     "                VALUES (:p1, :p2, :p3, :p4, :p5, :p6, :p7, :p8, :p9, :p10)";
     "                "].

Definition customers_data : list (list value) :=
  [[VStr "CUST-0001"; VStr "John Smith"; VStr "john@techcorp.com";
    VStr "+234-801-123-4567"; VStr "TechCorp Ltd"; VStr "Technology";
    VStr "Active"; VStr "Website"; VFloat (15000 # 1);
    VStr "Key decision maker"];
   [VStr "CUST-0002"; VStr "Sarah Johnson"; VStr "sarah@financeplus.com";
    VStr "+234-802-234-5678"; VStr "FinancePlus"; VStr "Finance";
    VStr "Active"; VStr "Referral"; VFloat (22000 # 1);
    VStr "Long-term partnership potential"];
   [VStr "CUST-0003"; VStr "Mike Davis"; VStr "mike@healthsolutions.com";
    VStr "+234-803-345-6789"; VStr "Health Solutions"; VStr "Healthcare";
    VStr "Prospect"; VStr "Cold Call"; VFloat (0 # 1);
    VStr "Interested in Q2 implementation"]].


Definition accounts_query : string :=
  lines
    ["";
     "                INSERT INTO chart_of_accounts (account_code, account_name, account_type, balance)";
     "                VALUES (:p1, :p2, :p3, :p4)";
     "                "].

Definition accounts_data : list (list value) :=
  [[VStr "1000"; VStr "Cash"; VStr "Assets"; VFloat (25000 # 1)];
   [VStr "1100"; VStr "Accounts Receivable"; VStr "Assets";
    VFloat (15000 # 1)];
   [VStr "1200"; VStr "Inventory"; VStr "Assets"; VFloat (30000 # 1)];
   [VStr "2000"; VStr "Accounts Payable"; VStr "Liabilities";
    VFloat (8000 # 1)];
   [VStr "3000"; VStr "Owner Equity"; VStr "Equity"; VFloat (50000 # 1)];
   [VStr "4000"; VStr "Sales Revenue"; VStr "Revenue"; VFloat (45000 # 1)];
   [VStr "5000"; VStr "Cost of Goods Sold"; VStr "Expenses";
    VFloat (18000 # 1)];
   [VStr "5100"; VStr "Office Expenses"; VStr "Expenses"; VFloat (3200 # 1)]].


Definition inventory_query : string :=
  lines
    ["";
     "                INSERT INTO inventory (sku, product_name, category, current_stock, reorder_point, unit_cost, unit_price, supplier, location)";
     "                VALUES (:p1, :p2, :p3, :p4, :p5, :p6, :p7, :p8, :p9)";
     "                "].

Definition inventory_data : list (list value) :=
  [[VStr "LAP-001"; VStr "Laptop Dell XPS"; VStr "Electronics"; VInt 25;
    VInt 10; VFloat (800 # 1); VFloat (1200 # 1); VStr "Dell Supplier";
    VStr "Warehouse A"];
   [VStr "CHR-002"; VStr "Office Chair"; VStr "Furniture"; VInt 8; VInt 15;
    VFloat (150 # 1); VFloat (250 # 1); VStr "Furniture Plus";
    VStr "Warehouse B"];
   [VStr "PRT-003"; VStr "Printer HP LaserJet"; VStr "Electronics"; VInt 45;
    VInt 20; VFloat (300 # 1); VFloat (450 # 1); VStr "HP Supplier";
    VStr "Warehouse A"]].


Definition employees_query : string :=
  lines
    ["";
     "                INSERT INTO employees (employee_id, first_name, last_name, email, phone, department, position, hire_date, salary, status)";
     "                VALUES (:p1, :p2, :p3, :p4, :p5, :p6, :p7, :p8, :p9, :p10)";
     "                "].

Definition employees_data : list (list value) :=
  [[VStr "EMP-001"; VStr "John"; VStr "Smith";
    VStr "john.smith@company.com"; VStr "+234-801-111-1111";
    VStr "Engineering"; VStr "Senior Developer"; VStr "2023-01-15";
    VFloat (75000 # 1); VStr "Active"];
   [VStr "EMP-002"; VStr "Sarah"; VStr "Johnson";
    VStr "sarah.johnson@company.com"; VStr "+234-802-222-2222";
    VStr "Sales"; VStr "Sales Manager"; VStr "2023-03-01";
    VFloat (65000 # 1); VStr "Active"];
   [VStr "EMP-003"; VStr "Mike"; VStr "Davis";
    VStr "mike.davis@company.com"; VStr "+234-803-333-3333";
    VStr "Marketing"; VStr "Marketing Specialist"; VStr "2023-06-10";
    VFloat (55000 # 1); VStr "Active"]].


Definition projects_query : string :=
  lines
    ["";
     "                INSERT INTO projects (project_name, description, start_date, due_date, status, progress, budget, team_size, project_manager, client)";
     "                VALUES (:p1, :p2, :p3, :p4, :p5, :p6, :p7, :p8, :p9, :p10)";
     "                "].

Definition projects_data : list (list value) :=
  [[VStr "Website Redesign"; VStr "Complete overhaul of company website";
    VStr "2024-01-01"; VStr "2024-02-15"; VStr "In Progress"; VInt 75;
    VFloat (15000 # 1); VInt 4; VStr "Project Manager 1"; VStr "Internal"];
   [VStr "Mobile App Development"; VStr "Native mobile application";
    VStr "2024-02-01"; VStr "2024-04-30"; VStr "Planning"; VInt 25;
    VFloat (50000 # 1); VInt 6; VStr "Project Manager 2";
    VStr "TechCorp Ltd"];
   [VStr "Database Migration"; VStr "Migrate legacy database to PostgreSQL";
    VStr "2023-12-01"; VStr "2024-01-20"; VStr "Completed"; VInt 100;
    VFloat (8000 # 1); VInt 3; VStr "Project Manager 1"; VStr "Internal"]].
Section Seed.
(** The engine; a dict of named parameters reaches it as one object. *)
Variable run : Engine.

(** [for row in data: self.session.execute(text(query), params)] *)
Definition insert_all (query : string) (data : list (list value))
  : M Process unit :=
  for_each data
    (fun row _ =>
       let params := named row in
       do! in_session (session_execute run (Raw query) [JObj params]) in
       ret tt)
    tt.

Definition insert_sample_data : M Process unit :=
  try_except
    ((* Check if data already exists *)
     let! result :=
       in_session
         (session_execute run (Raw "SELECT COUNT(*) FROM customers") []) in
     let! data_exists := gt_zero (scalar result) in
     if data_exists then ret tt
     else
       do! insert_all customers_query customers_data in
       do! insert_all accounts_query accounts_data in
       do! insert_all inventory_query inventory_data in
       do! insert_all employees_query employees_data in
       do! insert_all projects_query projects_data in
       do! in_session session_commit in
       print "Sample data inserted successfully")
    (fun e =>
       do! in_session session_rollback in
       print ("Error inserting sample data: " ++ e)).
End Seed.

End Seed.

(* ===================================================================== *)
(** ** app.py: the overview's inventory card *)
(* ===================================================================== *)

Module Dashboard.
Import Py Db.

(** [st.metric(label, value, delta)] *)
Inductive Card := Metric (label value delta : string).

Section Dashboard.
Variable run : Sql.Engine.
(** Python's [str]. *)
Variable str : value -> string.

(** [with get_database_connection() as db: metrics = db.get_business_metrics()] *)
Definition load_metrics : M World (gmap string value) :=
  with_connection (get_business_metrics run).

(** The fourth card: an alert when [metrics.get('low_stock_items', 0) > 0],
    the all-clear otherwise; [None] stands for the [TypeError] of a
    comparison Python does not define. *)
Definition stock_card (metrics : gmap string value) : option Card :=
  match Seed.positive (App.shown metrics "low_stock_items") with
  | Some true =>
      Some (Metric "Low Stock Items"
              (str (App.shown metrics "low_stock_items")) "⚠️ Alert")
  | Some false => Some (Metric "Inventory Status" "Good" "✅ OK")
  | None => None
  end.
End Dashboard.

End Dashboard.

(* ===================================================================== *)
(** ** modules/database_admin.py *)
(* ===================================================================== *)

Module Admin.
Import Py Sql Db.

(** [db.engine.text]: [db.engine] is the [Engine] that SQLAlchemy's
    [create_engine] returned, and an [Engine] has no attribute [text].
    ([text] is a function of the [sqlalchemy] package; utils/database.py
    imports it and writes [text(query)].)  Evaluating the expression
    raises an [AttributeError] before anything is sent. *)
Definition engine_text (sql : string) : M World string :=
  raise "'Engine' object has no attribute 'text'".

(** The query that lists the tables (lines 16-23). *)
Definition tables_query : string :=
  Seed.lines
    ["";
     "        SELECT table_name, ";
     "               (SELECT COUNT(*) FROM information_schema.columns WHERE table_name = t.table_name) as column_count";
     "        FROM information_schema.tables t";
     "        WHERE table_schema = 'public' ";
     "        AND table_type = 'BASE TABLE'";
     "        ORDER BY table_name;";
     "        "].

(** [table[0]] *)
Definition first_cell (table : list value) : M World value :=
  match table with
  | v :: _ => ret v
  | [] => raise "tuple index out of range"
  end.

(** The options of the "Records per page" box; the second is preselected. *)
Definition page_sizes : list Z := [10; 25; 50; 100].

(** [(total_count + page_size - 1) // page_size], on integers and with a
    page size out of [page_sizes]. *)
Definition total_pages (total_count page_size : Z) : Z :=
  (total_count + page_size - 1) / page_size.

(** *** [show_database_admin], up to the page of the "View Data" tab *)

Section Page.
Variable run : Engine.
(** Python's [str], which formats a value inside an f-string. *)
Variable str : value -> string.
(** The operator's choices: the table picked among the names offered (none
    when there is no name to offer), the position of the page size among
    [page_sizes], and the page number entered, given the smallest and the
    largest the input accepts. *)
Variable selectbox : list value -> option value.
Variable size_index : nat.
Variable number_input : Z -> Z -> Z.
(** The parts of the page that are left open: the three figures of the
    summary (lines 30-44); once the page of rows is fetched, its display
    and the tabs after "View Data" (lines 80-267); and how the run goes on
    when the count of the records is no integer, which the answer to a
    COUNT always is. *)
Variable summary : list (list value) -> M World unit.
Variable display : value -> DataFrame -> M World unit.
Variable not_a_count : value -> M World (option DataFrame).

Definition page_size : Z := default 25 (page_sizes !! size_index).

(** Returns the page of rows fetched for the "View Data" tab, if the run
    gets that far. *)
Definition show_database_admin : M World (option DataFrame) :=
  with_connection
    (try_except
       ((* Get table information *)
        let! query := engine_text tables_query in
        let! result := session_execute run (Raw query) [] in
        let tables_info := fetchall result in
        (* Display table summary *)
        do! summary tables_info in
        (* Table selector *)
        let! table_names :=
          for_each tables_info
            (fun table names =>
               let! name := first_cell table in
               ret (names ++ [name])%list)
            [] in
        match selectbox table_names with
        | Some selected_table =>
            if truthy selected_table then
              (* Get total count *)
              let! query :=
                engine_text ("SELECT COUNT(*) FROM " ++ str selected_table) in
              let! count_result := session_execute run (Raw query) [] in
              match scalar count_result with
              | VInt total_count =>
                  let total_pages := total_pages total_count page_size in
                  let page_num := number_input 1 (Z.max 1 total_pages) in
                  (* Load and display data *)
                  let offset := (page_num - 1) * page_size in
                  let! data_df :=
                    get_table_data run (str selected_table)
                      (LimitText page_size offset) in
                  do! display selected_table data_df in
                  ret (Some data_df)
              | total_count => not_a_count total_count
              end
            else ret None
        | None => ret None
        end)
       (fun e =>
          do! st_error ("Database connection error: " ++ e) in
          do! st_info "Please check your database configuration and try again." in
          ret None)).
End Page.

(** *** [show_database_backup] *)

(** [for x in j]: the items of a list, the keys of a dict, the characters
    of a string; anything else is not iterable. *)
Definition iterate (j : json) : M World (list json) :=
  match j with
  | JArr items => ret items
  | JObj members => ret (map (fun kv => JVal (VStr (fst kv))) members)
  | JVal (VStr s) =>
      ret (map (fun c => JVal (VStr (String c ""))) (list_ascii_of_string s))
  | _ => raise ("'" ++ type_name j ++ "' object is not iterable")
  end.

(** [j.items()] *)
Definition dict_items (j : json) : M World (list (string * json)) :=
  match j with
  | JObj members => ret members
  | _ => raise ("'" ++ type_name j ++ "' object has no attribute 'items'")
  end.

(** What [json.loads] makes of an uploaded file: the document, or the
    message of the error it raises on text that is not JSON. *)
Definition Upload : Type := string + json.

(** The message of an [UnboundLocalError], as Python 3.11 and later word
    it (before: "local variable 'json' referenced before assignment"). *)
Definition unbound_local (name : string) : string :=
  "cannot access local variable '" ++ name
  ++ "' where it is not associated with a value".

(** [json.loads(uploaded_backup.read())].  The module imports no [json];
    the [import json] at line 300 makes [json] a local name of
    [show_database_backup], bound only once that line has run in the same
    call.  [json_bound] tells whether it has. *)
Definition json_loads (json_bound : bool) (file : Upload) : M World json :=
  if json_bound then
    match file with
    | inr document => ret document
    | inl e => raise e
    end
  else raise (unbound_local "json").

Section Backup.
Variable run : Engine.
(** Python's [str], which [json.dumps] is given as its [default]. *)
Variable str : value -> string.
(** The rows of a frame as pandas holds them.  Building the frame fits
    every column to one dtype: an integer column with a NULL in it, for
    one, is held as floats, the NULL as NaN. *)
Variable held : list string -> list (list value) -> list (list value).

(** [df.to_dict('records')]: one dict per row, keyed by column name. *)
Definition to_dict_records (df : DataFrame) : list json :=
  map (fun row => JObj (zip (df_columns df) (map JVal row)))
    (held (df_columns df) (df_rows df)).

(** [json.dumps(j, indent=2, default=str)], as the document the text
    denotes: a value [json] has no notation for is written as the string
    [str] makes of it. *)
Fixpoint dumps (j : json) : json :=
  match j with
  | JVal v => if json_native v then JVal v else JVal (VStr (str v))
  | JArr items => JArr (map dumps items)
  | JObj members => JObj (map (fun kv => (fst kv, dumps (snd kv))) members)
  end.

(** "Create Backup" pressed (lines 289-312).  Returns the document offered
    for download, if any; [import json] has run exactly when there is
    one. *)
Definition create_backup (backup_tables : list string)
  : M World (option json) :=
  match backup_tables with
  | [] =>
      do! st_warning "Please select at least one table to backup." in
      ret None
  | _ =>
      let! backup_data :=
        with_connection
          (for_each backup_tables
             (fun table backup_data =>
                try_except
                  (let! df := get_table_data run table LimitNone in
                   ret (dict_set table (JArr (to_dict_records df))
                          backup_data))
                  (fun e =>
                     do! st_error ("Error backing up " ++ table ++ ": " ++ e) in
                     ret backup_data))
             []) in
      match backup_data with
      | [] => ret None
      | _ =>
          let backup_json := dumps (JObj backup_data) in
          do! st_success "Backup created successfully!" in
          ret (Some backup_json)
      end
  end.

(** The body of [for record in records]. *)
Definition insert_record (table_name : string) (record : json)
  : M World unit :=
  match record with
  | JObj members =>
      let columns := map fst members in
      let values := map snd members in
      let query := InsertInto table_name columns (length values) in
      do! execute_query run query (Some values) in
      ret tt
  | _ =>
      raise ("'" ++ type_name record ++ "' object has no attribute 'keys'")
  end.

(** The body of [for table_name, records in backup_data.items()]. *)
Definition restore_table (table_name : string) (records : json)
    (restored_tables : list string) : M World (list string) :=
  try_except
    ((* Clear existing data *)
     do! execute_query run (DeleteFrom table_name) None in
     (* Insert backup data *)
     let! items := iterate records in
     do! for_each items (fun record _ => insert_record table_name record) tt in
     ret (restored_tables ++ [table_name])%list)
    (fun e =>
       do! st_error ("Error restoring " ++ table_name ++ ": " ++ e) in
       ret restored_tables).

(** "Restore from Backup" pressed on an uploaded file (lines 321-351). *)
Definition restore_backup (json_bound : bool) (uploaded_backup : Upload)
  : M World unit :=
  try_except
    (let! backup_data := json_loads json_bound uploaded_backup in
     let! restored_tables :=
       with_connection
         (let! entries := dict_items backup_data in
          for_each entries
            (fun entry restored_tables =>
               restore_table (fst entry) (snd entry) restored_tables)
            []) in
     match restored_tables with
     | [] => st_error "No tables were restored successfully."
     | _ =>
         st_success ("Successfully restored tables: " ++
                     join ", " restored_tables)
     end)
    (fun e => st_error ("Error reading backup file: " ++ e)).

(** One run of the page: the tables selected, whether "Create Backup" was
    pressed, the file uploaded, if any, and whether "Restore from Backup"
    was pressed (the button is there only with a file; Streamlit reports at
    most one button as pressed in a run).  Returns the document offered for
    download, if any. *)
Definition show_database_backup (backup_tables : list string)
    (create_pressed : bool) (uploaded_backup : option Upload)
    (restore_pressed : bool) : M World (option json) :=
  (* Backup Database *)
  let! download :=
    if create_pressed then create_backup backup_tables else ret None in
  let json_bound := match download with Some _ => true | None => false end in
  (* Restore Database *)
  do! st_warning "⚠️ Restore will overwrite existing data!" in
  do! match uploaded_backup with
      | Some file =>
          if restore_pressed then restore_backup json_bound file else ret tt
      | None => ret tt
      end in
  ret download.
End Backup.

End Admin.

(* ===================================================================== *)
(** * Specification vocabulary and sample inputs *)
(* ===================================================================== *)

(** ** Key figures *)

(** The growth rate as the code settles it: the ratio when the previous
    aggregate is positive, 0 otherwise. *)
Definition growth_policy (reported : option Q) (current previous : Q) : Prop :=
  ((0 < previous)%Q ->
     reported = Some ((current - previous) / previous * 100)%Q) /\
  (~ (0 < previous)%Q -> reported = Some 0%Q).

(** The eight keys of the result. *)
Definition kpi_keys : gset string :=
  {[ "total_revenue"; "total_orders"; "active_customers"; "avg_order_value";
     "revenue_growth"; "order_growth"; "customer_growth"; "aov_growth" ]}.

(** Three orders by two customers: one in the previous window, two in the
    current. *)
Definition three_orders : Kpi.DataFrame :=
  Kpi.mkFrame ["date"; "revenue"; "customer"]
    [Kpi.mkRow 0 (10 # 1) (Some "ann");
     Kpi.mkRow (Kpi.timedelta_days 40) (5 # 1) (Some "bob");
     Kpi.mkRow (Kpi.timedelta_days 41) (6 # 1) (Some "ann")].

(** A refund of 10 in the previous window, a sale of 5 in the current. *)
Definition refund_then_sale : Kpi.DataFrame :=
  Kpi.mkFrame ["date"; "revenue"]
    [Kpi.mkRow 0 (-10 # 1) None; Kpi.mkRow (Kpi.timedelta_days 40) (5 # 1) None].

(** The growth rate as the specification words it: the plain ratio, with 0
    reserved for a previous aggregate equal to 0. *)
Definition growth_as_specified (reported : option Q) (current previous : Q)
  : Prop :=
  (previous == 0 -> reported = Some 0%Q) /\
  (~ previous == 0 ->
     exists g, reported = Some g /\ g == (current - previous) / previous * 100).

(** An order dated one day after the earliest Timestamp pandas can hold. *)
Definition earliest_order : Kpi.DataFrame :=
  Kpi.mkFrame ["date"; "revenue"]
    [Kpi.mkRow (Kpi.timestamp_min + Kpi.timedelta_days 1) (10 # 1) None].

(** The latest date leaves room for the two 30-day windows above the
    earliest Timestamp. *)
Definition windows_in_bounds (data : Kpi.DataFrame) : Prop :=
  Kpi.empty data = false -> Kpi.has_column "date" data = true ->
  forall latest, Kpi.date_max data = Some latest ->
    Kpi.timestamp_min + Kpi.timedelta_days 60 <= latest <= Kpi.timestamp_max.

(** ** Database layer *)

(** The parameters [execute_query] passes on: none unless [params] is a
    non-empty sequence. *)
Definition bound_params (params : option (list Py.json)) : list Py.json :=
  default [] params.

(** A statement that leaves the transaction's view of the data alone. *)
Definition read_only (run : Sql.Engine) (q : Sql.Stmt) : Prop :=
  forall db result db', run q [] db = inr (result, db') -> db' = db.

(** [result.scalar() or 0] *)
Definition scalar_or_zero (result : Sql.ResultSet) : Py.value :=
  Py.or_else (Sql.scalar result) (Py.VInt 0).

(** The five keys of a complete result. *)
Definition metric_keys : gset string :=
  {[ "active_customers"; "total_revenue"; "low_stock_items";
     "total_employees"; "active_projects" ]}.

(** The aggregator as the specification words it: every metric has its own
    guard and falls back to 0 by itself. *)
Definition metric_or_default (run : Sql.Engine) (q : Sql.Stmt)
    (convert : Py.value -> Py.M Db.World Py.value) : Py.M Db.World Py.value :=
  Py.try_except
    (let! result := Db.session_execute run q [] in
     convert (scalar_or_zero result))
    (fun _ => Py.ret (Py.VInt 0)).

Definition business_metrics_as_specified (run : Sql.Engine)
  : Py.M Db.World (gmap string Py.value) :=
  let! active_customers := metric_or_default run Db.q_active_customers Py.ret in
  let! total_revenue := metric_or_default run Db.q_total_revenue Db.py_float in
  let! low_stock_items := metric_or_default run Db.q_low_stock_items Py.ret in
  let! total_employees := metric_or_default run Db.q_total_employees Py.ret in
  let! active_projects := metric_or_default run Db.q_active_projects Py.ret in
  Py.ret (<["active_projects" := active_projects]>
         (<["total_employees" := total_employees]>
         (<["low_stock_items" := low_stock_items]>
         (<["total_revenue" := total_revenue]>
         (<["active_customers" := active_customers]> ∅))))).

(** An engine with no failures of its own and no statements beyond the
    modelled ones. *)
Definition never_rejects : Sql.Stmt -> Sql.Database -> option string :=
  fun _ _ => None.

Definition unsupported
  : string -> Sql.Database -> string + (Sql.ResultSet * Sql.Database) :=
  fun _ _ => inl "syntax error".

Definition plain_engine : Sql.Engine := Sql.sql_engine never_rejects unsupported.

(** The stock levels of an inventory row, when both are integers. *)
Definition stock_level (cols : list string) (row : list Py.value)
  : option (Z * Z) :=
  match Sql.cell cols row "current_stock", Sql.cell cols row "reorder_point" with
  | Some (Py.VInt stock), Some (Py.VInt reorder) => Some (stock, reorder)
  | _, _ => None
  end.

(** The derived predicate: stock at or below the reorder threshold. *)
Definition low_stock (cols : list string) (row : list Py.value) : bool :=
  match stock_level cols row with
  | Some (stock, reorder) => stock <=? reorder
  | None => false
  end.

(** Sample data: the five business tables. *)
Definition status_table (statuses : list string) : Sql.Table :=
  Sql.mkTable ["id"; "status"]
    (imap (fun i s => [Py.VInt (Z.of_nat i + 1); Py.VStr s]) statuses).

Definition sample_inventory : Sql.Table :=
  Sql.mkTable ["sku"; "current_stock"; "reorder_point"]
    [[Py.VStr "CHR-002"; Py.VInt 8; Py.VInt 15];
     [Py.VStr "LAP-001"; Py.VInt 25; Py.VInt 10];
     [Py.VStr "DSK-003"; Py.VInt 10; Py.VInt 10]].

Definition sample_invoices : Sql.Table :=
  Sql.mkTable ["id"; "amount"; "status"]
    [[Py.VInt 1; Py.VDecimal (2500 # 1); Py.VStr "Paid"];
     [Py.VInt 2; Py.VDecimal (1800 # 1); Py.VStr "Pending"];
     [Py.VInt 3; Py.VDecimal (701 # 2); Py.VStr "Paid"]].

Definition sample_db : Sql.Database :=
  <["customers" := status_table ["Active"; "Prospect"; "Active"]]>
  (<["invoices" := sample_invoices]>
  (<["inventory" := sample_inventory]>
  (<["employees" := status_table ["Active"; "Active"; "Active"]]>
  (<["projects" := status_table ["In Progress"; "Planning"; "Completed"]]> ∅)))).

(** The same database after the invoices table has been dropped. *)
Definition db_without_invoices : Sql.Database := delete "invoices" sample_db.


(** What the aggregator reports on [sample_db]. *)
Definition sample_metrics : gmap string Py.value :=
  <["active_projects" := Py.VInt 2]>
  (<["total_employees" := Py.VInt 3]>
  (<["low_stock_items" := Py.VInt 2]>
  (<["total_revenue" := Py.VFloat (5701 # 2)]>
  (<["active_customers" := Py.VInt 2]> ∅)))).

(** What the specified aggregator would report once invoices are gone. *)
Definition partial_metrics : gmap string Py.value :=
  <["active_projects" := Py.VInt 2]>
  (<["total_employees" := Py.VInt 3]>
  (<["low_stock_items" := Py.VInt 2]>
  (<["total_revenue" := Py.VInt 0]>
  (<["active_customers" := Py.VInt 2]> ∅)))).

(** ** Administration pages *)

(** The scenario of the specification: five customers, and a backup that
    lists one. *)
Definition five_customers : Sql.Table :=
  Sql.mkTable ["id"; "name"]
    [[Py.VInt 1; Py.VStr "Ada"]; [Py.VInt 2; Py.VStr "Bob"];
     [Py.VInt 3; Py.VStr "Cyd"]; [Py.VInt 4; Py.VStr "Dee"];
     [Py.VInt 5; Py.VStr "Eve"]].

Definition customers_db : Sql.Database := <["customers" := five_customers]> sample_db.

Definition ann_record : list (string * Py.json) :=
  [("id", Py.JVal (Py.VInt 1)); ("name", Py.JVal (Py.VStr "Ann"))].

Definition ann_backup : Py.json :=
  Py.JObj [("customers", Py.JArr [Py.JObj ann_record])].

(** Invoices with a decimal amount and a date. *)
Definition dated_invoices : Sql.Table :=
  Sql.mkTable ["id"; "amount"; "invoice_date"; "status"]
    [[Py.VInt 1; Py.VDecimal (2500 # 1); Py.VDate 19737; Py.VStr "Paid"];
     [Py.VInt 2; Py.VDecimal (2500 # 1); Py.VDate 19737; Py.VNone]].

Definition sample_str (v : Py.value) : string :=
  match v with
  | Py.VDate _ => "2024-01-15"
  | Py.VDecimal _ => "2500.00"
  | _ => ""
  end.

(** Rows that pandas holds as they were read. *)
Definition held_as_read (cols : list string) (rows : list (list Py.value))
  : list (list Py.value) := rows.

Definition invoices_db : Sql.Database := <["invoices" := dated_invoices]> sample_db.

Definition invoices_emptied_db : Sql.Database :=
  <["invoices" := Sql.mkTable (Sql.columns dated_invoices) []]> sample_db.

(** The document a backup of [dated_invoices] offers for download. *)
Definition invoices_document : Py.json :=
  Py.JObj
    [("invoices",
      Py.JArr
        [Py.JObj [("id", Py.JVal (Py.VInt 1));
                  ("amount", Py.JVal (Py.VStr "2500.00"));
                  ("invoice_date", Py.JVal (Py.VStr "2024-01-15"));
                  ("status", Py.JVal (Py.VStr "Paid"))];
         Py.JObj [("id", Py.JVal (Py.VInt 2));
                  ("amount", Py.JVal (Py.VStr "2500.00"));
                  ("invoice_date", Py.JVal (Py.VStr "2024-01-15"));
                  ("status", Py.JVal Py.VNone)]])].

(** A backup of two tables without records: [orders], which the database
    does not have, and [customers], which it has. *)
Definition two_table_backup : Py.json :=
  Py.JObj [("orders", Py.JArr []); ("customers", Py.JArr [])].

(** The tables the backup page has selected when it opens. *)
Definition default_selection : list string :=
  ["customers"; "chart_of_accounts"; "invoices"].

(** What a run of the backup page displays when a restore is asked for and
    no backup was created in the same run. *)
Definition restore_refused : list Db.UiEvent :=
  [Db.StWarning "⚠️ Restore will overwrite existing data!";
   Db.StError ("Error reading backup file: " ++ Admin.unbound_local "json")].

(** What a run of the administration page displays. *)
Definition page_refused : list Db.UiEvent :=
  [Db.StError
     "Database connection error: 'Engine' object has no attribute 'text'";
   Db.StInfo "Please check your database configuration and try again."].

(** ** Further vocabulary: key figures and data quality *)

(** The four growth rates of the key figures. *)
Definition growth_keys : list string :=
  ["revenue_growth"; "order_growth"; "customer_growth"; "aov_growth"].

(** Ten days of trading: four orders by three customers. *)
Definition ten_days : Kpi.DataFrame :=
  Kpi.mkFrame ["date"; "revenue"; "customer"]
    [Kpi.mkRow 0 (10 # 1) (Some "ann");
     Kpi.mkRow (Kpi.timedelta_days 3) (5 # 1) (Some "bob");
     Kpi.mkRow (Kpi.timedelta_days 3) (7 # 1) (Some "ann");
     Kpi.mkRow (Kpi.timedelta_days 10) (6 # 1) (Some "cyd")].

(** A frame as pandas keeps it: distinct names and a cell under every name
    in every row. *)
Definition frame_ok {cell} (df : Quality.Frame cell) : Prop :=
  NoDup (Quality.names df) /\
  Forall (fun row => length row = length (Quality.names df))
    (Quality.records df).

(** Sample frame: optional integers, one value missing, one row twice. *)
Definition survey : Quality.Frame (option Z) :=
  Quality.mkFrame ["age"; "score"]
    [[Some 31; Some 7]; [Some 40; None]; [Some 31; Some 7]; [Some 25; Some 9]].

Definition survey_checks : Quality.Results :=
  Quality.validate_data (option Z)
    (fun c => match c with None => true | Some _ => false end)
    (fun a b => bool_decide (a = b)) (fun _ => false) (fun _ => "?") survey.

(** ** Database layer, continued *)

(** The row's status is one of the given texts. *)
Definition has_status (choices : list string) (cols : list string)
    (row : list Py.value) : bool :=
  match Sql.cell cols row "status" with
  | Some (Py.VStr s) => bool_decide (s ∈ choices)
  | _ => false
  end.

(** The number of rows of a table that satisfy a predicate. *)
Definition count_rows (p : list string -> list Py.value -> bool)
    (tbl : Sql.Table) : Z :=
  Z.of_nat (length (List.filter (p (Sql.columns tbl)) (Sql.rows tbl))).

(** The amount of an invoice; a NULL amount adds nothing. *)
Definition amount_of (cols : list string) (row : list Py.value) : Q :=
  default 0%Q (Sql.cell cols row "amount" ≫= Sql.numeric).

(** The sum of the amounts of the paid invoices. *)
Definition paid_total (invoices : Sql.Table) : Q :=
  fold_right (fun row acc => (amount_of (Sql.columns invoices) row + acc)%Q)
    0%Q
    (List.filter (has_status ["Paid"] (Sql.columns invoices))
       (Sql.rows invoices)).

(** The rows a read delivers, none if it raised. *)
Definition fetched_rows (r : Py.outcome Db.DataFrame) : list (list Py.value) :=
  match r with
  | Py.Returned df => Db.df_rows df
  | Py.Raised _ => []
  end.

(** ** Administration pages, continued *)

(** The frame [get_table_data] delivers for a table: the table when it
    exists and the engine lets it be read, the empty frame otherwise. *)
Definition table_frame (rejects : Sql.Stmt -> Sql.Database -> option string)
    (db : Sql.Database) (t : string) : Db.DataFrame :=
  match rejects (Sql.SelectAll t None) db, db !! t with
  | None, Some tbl => Db.mkFrame (Sql.columns tbl) (Sql.rows tbl)
  | _, _ => Db.empty_frame
  end.

(** The engine lets the whole table be read. *)
Definition readable (rejects : Sql.Stmt -> Sql.Database -> option string)
    (db : Sql.Database) (t : string) : Prop :=
  rejects (Sql.SelectAll t None) db = None /\ is_Some (db !! t).

(** ** The sample data *)

(** The INSERT statements of the sample data, in the order the code
    issues them. *)
Definition statements (query : string) (data : list (list Py.value))
  : list (Sql.Stmt * list Py.json) :=
  map (fun row => (Sql.Raw query, [Py.JObj (Seed.named row)])) data.

Definition sample_statements : list (Sql.Stmt * list Py.json) :=
  (statements Seed.customers_query Seed.customers_data
   ++ statements Seed.accounts_query Seed.accounts_data
   ++ statements Seed.inventory_query Seed.inventory_data
   ++ statements Seed.employees_query Seed.employees_data
   ++ statements Seed.projects_query Seed.projects_data)%list.

(** Statements run one after the other, up to the first that fails. *)
Fixpoint run_all (run : Sql.Engine) (stmts : list (Sql.Stmt * list Py.json))
    (db : Sql.Database) : string + Sql.Database :=
  match stmts with
  | [] => inr db
  | (q, params) :: rest =>
      match run q params db with
      | inl e => inl e
      | inr (_, db') => run_all run rest db'
      end
  end.

(** The session rolled back, and the failure printed. *)
Definition rolled_back (before after : Seed.Process) : Prop :=
  Db.committed (Seed.world after) = Db.committed (Seed.world before) /\
  Db.working (Seed.world after) = Db.committed (Seed.world before) /\
  exists e,
    Seed.stdout after
    = (Seed.stdout before
       ++ [("Error inserting sample data: " ++ e)%string])%list.

(** An engine that knows one statement, the count of the customers, and
    answers it with 3. *)
Definition counting_engine : Sql.Engine := fun q _ db =>
  match q with
  | Sql.Raw "SELECT COUNT(*) FROM customers" =>
      inr (Sql.mkResult ["count"] [[Py.VInt 3]], db)
  | _ => inl "syntax error"
  end.

(* ===================================================================== *)
(** * Properties of [get_kpi_metrics] *)
(* ===================================================================== *)

Section KpiFacts.
Import Kpi.

Lemma gt0_true (x : Q) : gt0 x = true <-> (0 < x)%Q.
Proof.
  unfold gt0. rewrite Qlt_alt.
  destruct (0 ?= x)%Q; split; intros H; congruence.
Qed.

Lemma gt0_false (x : Q) : gt0 x = false <-> ~ (0 < x)%Q.
Proof.
  rewrite <- gt0_true. destruct (gt0 x); split; intros H; congruence.
Qed.

Lemma select_columns (mask : Row -> bool) (data : DataFrame) :
  columns (select mask data) = columns data.
Proof. reflexivity. Qed.

Lemma has_column_select (name : string) (mask : Row -> bool) (data : DataFrame) :
  has_column name (select mask data) = has_column name data.
Proof. reflexivity. Qed.

Lemma has_column_columns (name : string) (data : DataFrame) :
  has_column name data = true -> (length (columns data) =? 0)%nat = false.
Proof.
  unfold has_column. intros H%bool_decide_eq_true.
  destruct (columns data); [by apply elem_of_nil in H | done].
Qed.

(** With a column present, a frame is empty exactly when it has no rows. *)
Lemma empty_rows (name : string) (data : DataFrame) :
  has_column name data = true ->
  empty data = true <-> rows data = [].
Proof.
  intros H%has_column_columns. unfold empty. rewrite H, orb_false_r.
  destruct (rows data); simpl; split; intros; congruence.
Qed.

Lemma fold_max_ge (ds : list Z) (d : Z) : d <= fold_left Z.max ds d.
Proof.
  revert d. induction ds as [|x ds IH]; intros d; simpl; [lia|].
  specialize (IH (Z.max d x)). lia.
Qed.

Lemma fold_max_elem (ds : list Z) (d : Z) :
  fold_left Z.max ds d ∈ d :: ds.
Proof.
  revert d. induction ds as [|x ds IH]; intros d; simpl.
  - apply list_elem_of_here.
  - specialize (IH (Z.max d x)).
    apply elem_of_cons in IH as [->|IH].
    + destruct (Z.max_spec d x) as [[_ ->]|[_ ->]];
        [apply list_elem_of_further|]; apply list_elem_of_here.
    + by do 2 apply list_elem_of_further.
Qed.

(** The row carrying the latest date falls in the current window. *)
Lemma current_data_rows (data : DataFrame) :
  rows data <> [] -> rows (current_data data) <> [].
Proof.
  intros Hne. unfold current_data, current_start, date_max, select. simpl.
  destruct (rows data) as [|r rs] eqn:E; [done|]. simpl.
  pose proof (fold_max_elem (map date rs) (date r)) as Hin.
  change (date r :: map date rs) with (map date (r :: rs)) in Hin.
  apply list_elem_of_fmap in Hin as (r' & Hd & Hr').
  intros Hnil.
  assert (Hf : r' ∈ List.filter
            (fun r0 => fold_left Z.max (map date rs) (date r)
                       - timedelta_days 30 <=? date r0) (r :: rs)).
  { apply list_elem_of_In, filter_In. split; [by apply list_elem_of_In|].
    apply Z.leb_le. rewrite <- Hd. unfold timedelta_days. lia. }
  simpl in Hf. rewrite Hnil in Hf. by apply elem_of_nil in Hf.
Qed.


(** The windows the growth rates compare: the current one reaches back 30
    days from the latest date, the previous one covers the 30 days before. *)
Lemma kpi_windows (data : DataFrame) (latest : Z) (r : Row) :
  date_max data = Some latest ->
  (r ∈ rows (current_data data) <->
     r ∈ rows data /\ latest - timedelta_days 30 <= date r) /\
  (r ∈ rows (previous_data data) <->
     r ∈ rows data /\
     latest - timedelta_days 60 <= date r < latest - timedelta_days 30).
Proof.
  intros Hmax.
  unfold current_data, previous_data, previous_start, current_start, select.
  rewrite Hmax. simpl. rewrite !list_elem_of_In, !filter_In.
  rewrite andb_true_iff, Z.leb_le, Z.leb_le, Z.ltb_lt.
  unfold timedelta_days. split; split; intros H; (split; [tauto|lia]).
Qed.

Lemma growth_meets_policy (current previous : Q) :
  growth_policy (Some (growth current previous)) current previous.
Proof.
  unfold growth_policy, growth.
  destruct (gt0 previous) eqn:E.
  - apply gt0_true in E. split; [done | intros H; by destruct H].
  - apply gt0_false in E. split; [intros H; by destruct E | done].
Qed.

Lemma zero_meets_policy (current previous : Q) :
  ~ (0 < previous)%Q -> growth_policy (Some 0%Q) current previous.
Proof. intros Hp. split; [intros H; by destruct Hp | done]. Qed.

Lemma no_rows_aggregates (part : DataFrame) :
  rows part = [] ->
  period_revenue part = 0%Q /\ period_orders part = 0%Q /\
  period_customers part = 0%Q /\ period_aov part = 0%Q.
Proof.
  intros H.
  assert (Hr : period_revenue part = 0%Q).
  { unfold period_revenue, revenue_sum. rewrite H. simpl.
    by destruct (has_column _ _). }
  assert (Ho : period_orders part = 0%Q).
  { unfold period_orders, len. by rewrite H. }
  repeat split; try done.
  - unfold period_customers, customer_nunique. rewrite H. simpl.
    by destruct (has_column _ _).
  - unfold period_aov. by rewrite Hr, Ho.
Qed.

Lemma not_pos_zero : ~ (0 < 0)%Q.
Proof. apply Qlt_irrefl. Qed.
End KpiFacts.


Section KpiTheorems.
Import Kpi.

Lemma zero_metrics_dom : dom zero_metrics = kpi_keys.
Proof. unfold zero_metrics, kpi_keys. rewrite !dom_insert_L. set_solver. Qed.

Lemma zero_metrics_lookup (key : string) :
  key ∈ kpi_keys -> zero_metrics !! key = Some 0%Q.
Proof.
  unfold kpi_keys. rewrite !elem_of_union, !elem_of_singleton.
  intros H. repeat destruct H as [H|H]; subst key; reflexivity.
Qed.

Lemma avg_order_value_rule (a n : Q) :
  ((0 < n)%Q -> ratio_or_zero a n = (a / n)%Q) /\
  (~ (0 < n)%Q -> ratio_or_zero a n = 0%Q).
Proof.
  unfold ratio_or_zero. destruct (gt0 n) eqn:E.
  - apply gt0_true in E. split; [done | intros H; by destruct H].
  - apply gt0_false in E. split; [intros H; by destruct E | done].
Qed.
End KpiTheorems.

Lemma minus_days_in_bounds (t n : Z) :
  Kpi.timestamp_min <= t - Kpi.timedelta_days n <= Kpi.timestamp_max ->
  Kpi.minus_days t n = Some (t - Kpi.timedelta_days n).
Proof.
  intros [Hlo Hhi]. unfold Kpi.minus_days, Kpi.in_bounds. simpl.
  apply Z.leb_le in Hlo. apply Z.leb_le in Hhi. by rewrite Hlo, Hhi.
Qed.

Lemma three_orders_in_bounds : windows_in_bounds three_orders.
Proof.
  intros _ _ latest Hmax. vm_compute in Hmax. injection Hmax as <-.
  vm_compute. split; discriminate.
Qed.

Lemma no_frame_in_bounds : windows_in_bounds (Kpi.mkFrame [] []).
Proof. intros Hempty. discriminate Hempty. Qed.

(** C10, as amended.  On every frame of well-typed columns whose latest
    date, when the frame has rows and a date column, lies at least 60 days
    above the earliest Timestamp pandas can hold, [get_kpi_metrics] returns
    a mapping with exactly the eight keys total_revenue, total_orders,
    active_customers, avg_order_value, revenue_growth, order_growth,
    customer_growth and aov_growth.  On an empty frame every one of them is
    0.  In every result avg_order_value is total_revenue / total_orders
    when total_orders > 0, and 0 otherwise. *)
Theorem kpi_result_shape_in_bounds (data : Kpi.DataFrame) :
  windows_in_bounds data ->
  exists m : gmap string Q,
    Kpi.call_get_kpi_metrics data = Some m /\
    dom m = kpi_keys /\
    (Kpi.empty data = true ->
       forall key, key ∈ kpi_keys -> m !! key = Some 0%Q) /\
    exists total_revenue total_orders : Q,
      m !! "total_revenue" = Some total_revenue /\
      m !! "total_orders" = Some total_orders /\
      ((0 < total_orders)%Q ->
         m !! "avg_order_value" = Some (total_revenue / total_orders)%Q) /\
      (~ (0 < total_orders)%Q -> m !! "avg_order_value" = Some 0%Q).
Proof.
  intros Hbounds. exists (Kpi.get_kpi_metrics data). split.
  { unfold Kpi.call_get_kpi_metrics.
    destruct (Kpi.empty data) eqn:Hempty; [done|].
    destruct (Kpi.has_column "date" data) eqn:Hdate; [|done].
    destruct (Kpi.date_max data) as [latest|] eqn:Hmax; [|done].
    destruct (Hbounds Hempty Hdate latest Hmax) as [Hlo Hhi].
    unfold Kpi.timedelta_days in Hlo.
    rewrite minus_days_in_bounds by (unfold Kpi.timedelta_days; lia).
    by rewrite minus_days_in_bounds by (unfold Kpi.timedelta_days; lia). }
  unfold Kpi.get_kpi_metrics.
  destruct (Kpi.empty data) eqn:Hempty.
  - split; [apply zero_metrics_dom|]. split.
    + intros _ key Hkey. by apply zero_metrics_lookup.
    + exists 0%Q, 0%Q. repeat split; reflexivity.
  - set (total_revenue :=
           if Kpi.has_column "revenue" data then Kpi.revenue_sum data else 0%Q).
    set (total_orders := inject_Z (Kpi.len data)).
    split; [|split; [done|]].
    + destruct (Kpi.has_column "date" data);
        [destruct (negb _ && negb _); [destruct (Kpi.has_column "customer" data)|]|];
        unfold kpi_keys; rewrite !dom_insert_L; set_solver.
    + exists total_revenue, total_orders.
      destruct (avg_order_value_rule total_revenue total_orders) as [Hpos Hnot].
      destruct (Kpi.has_column "date" data);
        [destruct (negb _ && negb _); [destruct (Kpi.has_column "customer" data)|]|];
        (split; [by simplify_map_eq|]); (split; [by simplify_map_eq|]);
        (split; intros H; [rewrite <- (Hpos H) | rewrite <- (Hnot H)];
         by simplify_map_eq).
Qed.

Lemma kpi_result_shape_in_bounds_witness :
  (exists m : gmap string Q,
     Kpi.call_get_kpi_metrics three_orders = Some m /\ dom m = kpi_keys) /\
  (exists m : gmap string Q,
     Kpi.call_get_kpi_metrics (Kpi.mkFrame [] []) = Some m /\
     m !! "aov_growth" = Some 0%Q) /\
  (exists m : gmap string Q,
     Kpi.call_get_kpi_metrics three_orders = Some m /\
     m !! "avg_order_value" = Some (21 / 3)%Q).
Proof.
  split; [|split].
  - destruct (kpi_result_shape_in_bounds three_orders three_orders_in_bounds)
      as (m & Hm & Hdom & _).
    by exists m.
  - destruct (kpi_result_shape_in_bounds (Kpi.mkFrame [] []) no_frame_in_bounds)
      as (m & Hm & _ & Hzero & _).
    exists m. split; [exact Hm|]. apply Hzero; [reflexivity|].
    unfold kpi_keys. set_solver.
  - destruct (kpi_result_shape_in_bounds three_orders three_orders_in_bounds)
      as (m & Hm & _ & _ & r & n & Hr & Hn & Hpos & _).
    exists m. split; [exact Hm|].
    assert (Hcall : Kpi.call_get_kpi_metrics three_orders
                    = Some (Kpi.get_kpi_metrics three_orders)) by reflexivity.
    rewrite Hcall in Hm. injection Hm as <-.
    vm_compute in Hr, Hn. injection Hr as <-. injection Hn as <-.
    apply Hpos. reflexivity.
Defined.

(** C10 as stated fails on a frame dated next to the earliest Timestamp:
    the start of the current window cannot be computed, the call raises and
    no mapping is returned. *)
Lemma kpi_raises_below_earliest_timestamp :
  Kpi.empty earliest_order = false /\
  Kpi.date_max earliest_order =
    Some (Kpi.timestamp_min + Kpi.timedelta_days 1) /\
  Kpi.minus_days (Kpi.timestamp_min + Kpi.timedelta_days 1) 30 = None /\
  Kpi.call_get_kpi_metrics earliest_order = None /\
  ~ (exists m : gmap string Q,
       Kpi.call_get_kpi_metrics earliest_order = Some m /\ dom m = kpi_keys).
Proof.
  assert (H : Kpi.call_get_kpi_metrics earliest_order = None) by reflexivity.
  repeat split; try reflexivity.
  intros (m & Hm & _). rewrite H in Hm. discriminate.
Qed.

(** C2, as amended.  On every frame with a date column, each of the four
    growth rates compares the aggregate over the last 30 days (counted back
    from the latest date) with the aggregate over the 30 days before: it is
    (current - previous) / previous * 100 when the previous aggregate is
    positive, and exactly 0 when the previous aggregate is 0 or negative. *)
Theorem kpi_growth_rates (data : Kpi.DataFrame) :
  Kpi.has_column "date" data = true ->
  let m := Kpi.get_kpi_metrics data in
  let current := Kpi.current_data data in
  let previous := Kpi.previous_data data in
  growth_policy (m !! "revenue_growth")
    (Kpi.period_revenue current) (Kpi.period_revenue previous) /\
  growth_policy (m !! "order_growth")
    (Kpi.period_orders current) (Kpi.period_orders previous) /\
  growth_policy (m !! "customer_growth")
    (Kpi.period_customers current) (Kpi.period_customers previous) /\
  growth_policy (m !! "aov_growth")
    (Kpi.period_aov current) (Kpi.period_aov previous).
Proof.
  intros Hdate m current previous. subst m.
  assert (Hprev : Kpi.has_column "date" previous = true) by done.
  assert (Hcur : Kpi.has_column "date" current = true) by done.
  assert (Hzero : Kpi.rows previous = [] ->
    forall revenue orders customers aov,
      growth_policy (Some 0%Q) revenue (Kpi.period_revenue previous) /\
      growth_policy (Some 0%Q) orders (Kpi.period_orders previous) /\
      growth_policy (Some 0%Q) customers (Kpi.period_customers previous) /\
      growth_policy (Some 0%Q) aov (Kpi.period_aov previous)).
  { intros Hnil revenue orders customers aov.
    destruct (no_rows_aggregates previous Hnil) as (-> & -> & -> & ->).
    repeat split; try done; intros H; by apply not_pos_zero in H. }
  unfold Kpi.get_kpi_metrics.
  destruct (Kpi.empty data) eqn:Hempty.
  - apply (empty_rows "date" data Hdate) in Hempty.
    assert (Hnil : Kpi.rows previous = []).
    { unfold previous, Kpi.previous_data, Kpi.select. simpl. by rewrite Hempty. }
    apply (Hzero Hnil).
  - rewrite Hdate. fold current previous.
    destruct (Kpi.empty previous) eqn:Hpe; simpl.
    { apply (empty_rows "date" previous Hprev) in Hpe.
      rewrite !lookup_insert_eq, !lookup_insert_ne, !lookup_insert_eq by done.
      rewrite !lookup_insert_ne, !lookup_insert_eq by done.
      apply (Hzero Hpe). }
    destruct (Kpi.empty current) eqn:Hce; simpl.
    { apply (empty_rows "date" current Hcur) in Hce.
      exfalso. apply (current_data_rows data); [|exact Hce].
      intros Hnil. apply (empty_rows "date" data Hdate) in Hnil. congruence. }
    split; [|split; [|split]].
    + destruct (Kpi.has_column "customer" data);
        rewrite !lookup_insert_ne, lookup_insert_eq by done;
        apply growth_meets_policy.
    + destruct (Kpi.has_column "customer" data);
        rewrite !lookup_insert_ne, lookup_insert_eq by done;
        apply growth_meets_policy.
    + unfold Kpi.period_customers.
      change (Kpi.has_column "customer" current)
        with (Kpi.has_column "customer" data).
      change (Kpi.has_column "customer" previous)
        with (Kpi.has_column "customer" data).
      destruct (Kpi.has_column "customer" data);
        rewrite !lookup_insert_ne, lookup_insert_eq by done.
      * apply growth_meets_policy.
      * apply zero_meets_policy, not_pos_zero.
    + rewrite lookup_insert_eq. apply growth_meets_policy.
Qed.


Lemma kpi_growth_rates_witness :
  Kpi.get_kpi_metrics three_orders !! "order_growth" = Some ((2 - 1) / 1 * 100)%Q /\
  Kpi.get_kpi_metrics refund_then_sale !! "revenue_growth" = Some 0%Q.
Proof.
  split.
  - apply (kpi_growth_rates three_orders); reflexivity.
  - apply (kpi_growth_rates refund_then_sale); [reflexivity|].
    vm_compute. discriminate.
Defined.


(** C2 as stated fails on a negative previous-period revenue: the
    specified ratio is -150 and the reported growth is 0. *)
Lemma kpi_growth_negative_previous :
  Kpi.has_column "date" refund_then_sale = true /\
  Kpi.period_revenue (Kpi.previous_data refund_then_sale) = (-10 # 1) /\
  Kpi.period_revenue (Kpi.current_data refund_then_sale) = (5 # 1) /\
  Kpi.get_kpi_metrics refund_then_sale !! "revenue_growth" = Some 0%Q /\
  ~ growth_as_specified
      (Kpi.get_kpi_metrics refund_then_sale !! "revenue_growth")
      (Kpi.period_revenue (Kpi.current_data refund_then_sale))
      (Kpi.period_revenue (Kpi.previous_data refund_then_sale)).
Proof.
  repeat split; try reflexivity.
  intros [_ H].
  destruct H as (g & Hg & Heq); [by vm_compute|].
  vm_compute in Hg. injection Hg as <-.
  vm_compute in Heq. discriminate.
Qed.

(* ===================================================================== *)
(** * Properties of [DatabaseManager] *)
(* ===================================================================== *)

(** Closed equations between computed values, checked by evaluation. *)
Ltac vm_refl :=
  lazymatch goal with
  | |- @eq ?T _ ?y => vm_cast_no_check (@eq_refl T y)
  end.

Section ManagerFacts.
Import Py Sql Db.
Variable run : Engine.

Lemma session_execute_raises (q : Stmt) (params : list json) (w : World) (e : string) :
  run q params (working w) = inl e ->
  session_execute run q params w = (Raised e, w).
Proof. intros H. unfold session_execute. by rewrite H. Qed.

Lemma session_execute_returns (q : Stmt) (params : list json) (w : World)
  (result : ResultSet) (db : Database) :
  run q params (working w) = inr (result, db) ->
  session_execute run q params w
  = (Returned result, mkWorld (committed w) db (ui w)).
Proof. intros H. unfold session_execute. by rewrite H. Qed.

Lemma execute_query_params (q : Stmt) (params : option (list json)) :
  match params with
  | Some (p :: ps) => session_execute run q (p :: ps)
  | _ => session_execute run q []
  end = session_execute run q (bound_params params).
Proof. by destruct params as [[|p ps]|]. Qed.

Lemma execute_query_fails (q : Stmt) (params : option (list json)) (w : World)
  (e : string) :
  run q (bound_params params) (working w) = inl e ->
  execute_query run q params w
  = (Returned None,
     mkWorld (committed w) (committed w)
       (ui w ++ [StError ("Query execution error: " ++ e)])).
Proof.
  intros H. unfold execute_query. rewrite execute_query_params.
  unfold try_except, bind. by rewrite (session_execute_raises _ _ _ _ H).
Qed.

Lemma execute_query_succeeds (q : Stmt) (params : option (list json))
  (w : World) (result : ResultSet) (db : Database) :
  run q (bound_params params) (working w) = inr (result, db) ->
  execute_query run q params w
  = (Returned (Some result), mkWorld db db (ui w)).
Proof.
  intros H. unfold execute_query. rewrite execute_query_params.
  unfold try_except, bind. by rewrite (session_execute_returns _ _ _ _ _ H).
Qed.

(** [execute_query] never raises. *)
Lemma execute_query_returns (q : Stmt) (params : option (list json)) (w : World) :
  exists result w', execute_query run q params w = (Returned result, w').
Proof.
  destruct (run q (bound_params params) (working w)) as [e|[r db]] eqn:E.
  - eexists _, _. by apply execute_query_fails.
  - eexists _, _. by apply execute_query_succeeds.
Qed.
End ManagerFacts.

(** C8.  Whatever statement the ad-hoc executor is handed: when its
    execution fails the transaction is rolled back (the committed database
    is untouched and the session is back on it), the error's message is
    shown to the operator as it is, after the words "Query execution error",
    and no result set is returned ([None]); when it succeeds the
    transaction is committed and the result is returned. *)
Theorem execute_query_outcome (run : Sql.Engine) (q : Sql.Stmt)
    (params : option (list Py.json)) (w : Db.World) :
  let outcome := fst (Db.execute_query run q params w) in
  let w' := snd (Db.execute_query run q params w) in
  match run q (bound_params params) (Db.working w) with
  | inl e =>
      outcome = Py.Returned None /\
      Db.committed w' = Db.committed w /\
      Db.working w' = Db.committed w /\
      Db.ui w' = (Db.ui w ++ [Db.StError ("Query execution error: " ++ e)])%list
  | inr (result, db) =>
      outcome = Py.Returned (Some result) /\
      Db.committed w' = db /\
      Db.working w' = db /\
      Db.ui w' = Db.ui w
  end.
Proof.
  intros outcome w'. subst outcome w'.
  destruct (run q (bound_params params) (Db.working w)) as [e|[r db]] eqn:E.
  - by rewrite (execute_query_fails run q params w e E).
  - by rewrite (execute_query_succeeds run q params w r db E).
Qed.

(** C9.  [get_table_data] returns a frame for every table name and every
    limit and never raises; when the query fails the frame is the empty
    one; when a query without limit succeeds the frame holds the table's
    column names and every row of the table. *)
Theorem get_table_data_never_raises (run : Sql.Engine)
    (rejects : Sql.Stmt -> Sql.Database -> option string)
    (other : string -> Sql.Database -> string + (Sql.ResultSet * Sql.Database))
    (table_name : string) (limit : Db.LimitArg) (w : Db.World) :
  (exists df w',
     Db.get_table_data run table_name limit w = (Py.Returned df, w')) /\
  (forall e,
     run (Db.table_query table_name limit) [] (Db.working w) = inl e ->
     fst (Db.get_table_data run table_name limit w)
     = Py.Returned Db.empty_frame) /\
  (forall tbl,
     Db.working w !! table_name = Some tbl ->
     rejects (Sql.SelectAll table_name None) (Db.working w) = None ->
     Db.get_table_data (Sql.sql_engine rejects other) table_name Db.LimitNone w
     = (Py.Returned (Db.mkFrame (Sql.columns tbl) (Sql.rows tbl)), w)).
Proof.
  split; [|split].
  - unfold Db.get_table_data, Py.try_except, Py.bind, Db.session_execute.
    destruct (run _ _ _) as [e|[r db]]; simpl; eauto.
  - intros e H.
    unfold Db.get_table_data, Py.try_except, Py.bind, Db.session_execute.
    by rewrite H.
  - intros tbl Htbl Hrej.
    unfold Db.get_table_data, Py.try_except, Py.bind, Db.session_execute.
    unfold Db.table_query, Sql.sql_engine. simpl.
    rewrite Hrej. unfold Sql.select_all. rewrite Htbl. simpl.
    by destruct w.
Qed.

Lemma get_table_data_never_raises_witness :
  fst (Db.get_table_data plain_engine "orders" Db.LimitNone (Db.at_rest sample_db))
  = Py.Returned Db.empty_frame /\
  fst (Db.get_table_data plain_engine "inventory" Db.LimitNone
         (Db.at_rest sample_db))
  = Py.Returned (Db.mkFrame (Sql.columns sample_inventory)
                   (Sql.rows sample_inventory)).
Proof.
  split.
  - apply (get_table_data_never_raises plain_engine never_rejects unsupported
             "orders" Db.LimitNone (Db.at_rest sample_db))
      with (e := "relation orders does not exist").
    vm_refl.
  - unfold plain_engine.
    rewrite (proj2 (proj2 (get_table_data_never_raises plain_engine
               never_rejects unsupported "inventory" Db.LimitNone
               (Db.at_rest sample_db))) sample_inventory);
      [reflexivity | vm_refl | reflexivity].
Defined.

Section MetricsFacts.
Import Py Sql Db.
Variable run : Engine.
Hypothesis queries_read_only : forall q, q ∈ metric_queries -> read_only run q.

Lemma metric_query_cases (q : Stmt) :
  q ∈ metric_queries ->
  q = q_active_customers \/ q = q_total_revenue \/ q = q_low_stock_items \/
  q = q_total_employees \/ q = q_active_projects.
Proof.
  unfold metric_queries. rewrite !elem_of_cons, elem_of_nil. tauto.
Qed.

Lemma metric_query_elem (q : Stmt) :
  q = q_active_customers \/ q = q_total_revenue \/ q = q_low_stock_items \/
  q = q_total_employees \/ q = q_active_projects ->
  q ∈ metric_queries.
Proof.
  unfold metric_queries. rewrite !elem_of_cons, elem_of_nil. tauto.
Qed.

(** A metric query that succeeds leaves the session where it was. *)
Lemma metric_query_returns (q : Stmt) (w : World) (result : ResultSet)
  (db : Database) :
  q ∈ metric_queries ->
  run q [] (working w) = inr (result, db) ->
  session_execute run q [] w = (Returned result, w).
Proof.
  intros Hq H. rewrite (session_execute_returns run _ _ _ _ _ H).
  rewrite (queries_read_only q Hq _ _ _ H). by destruct w.
Qed.

(** One query of the aggregator: it raises and the handler takes over, or it
    returns and the session stands where it stood. *)
Ltac query_step Hin q :=
  let E := fresh "E" in
  destruct (run q [] (working _)) as [?|[? ?]] eqn:E;
  [ by rewrite (session_execute_raises run _ _ _ _ E)
  | rewrite (metric_query_returns _ _ _ _ (Hin q ltac:(tauto)) E) ].

(** The whole of [get_business_metrics], query by query. *)
Lemma get_business_metrics_unfold (w : World) :
  get_business_metrics run w =
  let failed e :=
    (Returned (∅ : gmap string value),
     mkWorld (committed w) (working w)
       (ui w ++ [StError ("Error getting business metrics: " ++ e)])) in
  match run q_active_customers [] (working w) with
  | inl e => failed e
  | inr (r1, _) =>
  match run q_total_revenue [] (working w) with
  | inl e => failed e
  | inr (r2, _) =>
  match float (scalar_or_zero r2) with
  | None => failed "float() argument must be a string or a real number"
  | Some revenue =>
  match run q_low_stock_items [] (working w) with
  | inl e => failed e
  | inr (r3, _) =>
  match run q_total_employees [] (working w) with
  | inl e => failed e
  | inr (r4, _) =>
  match run q_active_projects [] (working w) with
  | inl e => failed e
  | inr (r5, _) =>
      (Returned
         (<["active_projects" := scalar_or_zero r5]>
         (<["total_employees" := scalar_or_zero r4]>
         (<["low_stock_items" := scalar_or_zero r3]>
         (<["total_revenue" := revenue]>
         (<["active_customers" := scalar_or_zero r1]> ∅))))), w)
  end end end end end end.
Proof.
  assert (Hin : forall q,
            q = q_active_customers \/ q = q_total_revenue \/
            q = q_low_stock_items \/ q = q_total_employees \/
            q = q_active_projects -> q ∈ metric_queries)
    by apply metric_query_elem.
  cbv zeta. unfold get_business_metrics, try_except, bind.
  query_step Hin q_active_customers.
  query_step Hin q_total_revenue.
  unfold py_float. fold (scalar_or_zero r0).
  destruct (float (scalar_or_zero r0)) as [revenue|]; [|done].
  unfold ret at 1.
  query_step Hin q_low_stock_items.
  query_step Hin q_total_employees.
  query_step Hin q_active_projects.
  reflexivity.
Qed.
End MetricsFacts.

Lemma shown_empty (key : string) : App.shown ∅ key = Py.VInt 0.
Proof. unfold App.shown. by rewrite lookup_empty. Qed.

(** C1, as amended.  The aggregator never raises.  If the query of any one
    metric fails it displays an error and returns the empty mapping, so that
    every metric, also one whose own query succeeds, is dropped and reads as
    the default 0 on the dashboard; only when all five queries succeed does
    it return the five metrics, each with its true value. *)
Theorem business_metrics_all_or_nothing (run : Sql.Engine) (w : Db.World) :
  (forall q, q ∈ Db.metric_queries -> read_only run q) ->
  exists m w',
    Db.get_business_metrics run w = (Py.Returned m, w') /\
    (forall q e,
       q ∈ Db.metric_queries -> run q [] (Db.working w) = inl e ->
       m = ∅ /\ (forall key, App.shown m key = Py.VInt 0) /\
       exists msg,
         Db.ui w' = (Db.ui w ++
           [Db.StError ("Error getting business metrics: " ++ msg)])%list) /\
    (forall r1 r2 r3 r4 r5 db1 db2 db3 db4 db5 revenue,
       run Db.q_active_customers [] (Db.working w) = inr (r1, db1) ->
       run Db.q_total_revenue [] (Db.working w) = inr (r2, db2) ->
       run Db.q_low_stock_items [] (Db.working w) = inr (r3, db3) ->
       run Db.q_total_employees [] (Db.working w) = inr (r4, db4) ->
       run Db.q_active_projects [] (Db.working w) = inr (r5, db5) ->
       Py.float (scalar_or_zero r2) = Some revenue ->
       w' = w /\
       dom m = metric_keys /\
       m = <["active_projects" := scalar_or_zero r5]>
           (<["total_employees" := scalar_or_zero r4]>
           (<["low_stock_items" := scalar_or_zero r3]>
           (<["total_revenue" := revenue]>
           (<["active_customers" := scalar_or_zero r1]> ∅))))).
Proof.
  intros Hro. rewrite (get_business_metrics_unfold run Hro w). cbv zeta.
  destruct (run Db.q_active_customers [] (Db.working w)) as [e1|[r1 ?]] eqn:E1;
  [|destruct (run Db.q_total_revenue [] (Db.working w)) as [e2|[r2 ?]] eqn:E2;
  [|destruct (Py.float (scalar_or_zero r2)) as [revenue|] eqn:Ef;
  [destruct (run Db.q_low_stock_items [] (Db.working w)) as [e3|[r3 ?]] eqn:E3;
  [|destruct (run Db.q_total_employees [] (Db.working w)) as [e4|[r4 ?]] eqn:E4;
  [|destruct (run Db.q_active_projects [] (Db.working w)) as [e5|[r5 ?]] eqn:E5]]|]]];
  eexists _, _; (split; [reflexivity|]).
  all: try (split;
    [ intros q e _ _; split; [done|]; split; [apply shown_empty|by eexists]
    | intros; congruence ]).
  split.
  - intros q e Hq He.
    apply (metric_query_cases q) in Hq as [->|[->|[->|[->| ->]]]]; congruence.
  - intros r1' r2' r3' r4' r5' ? ? ? ? ? revenue' H1 H2 H3 H4 H5 Hf.
    injection H1 as <- _. injection H2 as <- _. injection H3 as <- _.
    injection H4 as <- _. injection H5 as <- _.
    rewrite Ef in Hf. injection Hf as <-.
    split; [done|]. split; [|done].
    unfold metric_keys. rewrite !dom_insert_L. set_solver.
Qed.

Section EngineFacts.
Import Py Sql Db.
Variable rejects : Stmt -> Database -> option string.
Variable other : string -> Database -> string + (ResultSet * Database).

(** Aggregate queries only read. *)
Lemma select_agg_read_only (a : Agg) (t : string) (c : Cond) :
  read_only (sql_engine rejects other) (SelectAgg a t c).
Proof.
  intros db result db'. unfold sql_engine, select_agg.
  destruct (rejects _ _); [done|].
  destruct (db !! t) as [tbl|]; [|done].
  destruct (negb _); [done|]. destruct (existsb _ _); [done|].
  destruct a as [|col]; [by intros [= _ <-]|].
  destruct (mapM _ _); [|done]. destruct (sum_cells _ _); [|done].
  by intros [= _ <-].
Qed.

Lemma metric_queries_read_only (q : Stmt) :
  q ∈ metric_queries -> read_only (sql_engine rejects other) q.
Proof.
  intros [->|[->|[->|[->| ->]]]]%metric_query_cases;
    apply select_agg_read_only.
Qed.




Lemma count_or_zero (n : nat) :
  or_else (VInt (Z.of_nat n)) (VInt 0) = VInt (Z.of_nat n).
Proof.
  unfold or_else. simpl. destruct (Z.eqb_spec (Z.of_nat n) 0) as [->|]; done.
Qed.
End EngineFacts.



Lemma sample_db_inventory :
  Db.working (Db.at_rest sample_db) !! "inventory" = Some sample_inventory.
Proof. vm_refl. Qed.

Lemma sample_metrics_run :
  Db.get_business_metrics plain_engine (Db.at_rest sample_db)
  = (Py.Returned sample_metrics, Db.at_rest sample_db).
Proof. vm_refl. Qed.

Lemma sample_metrics_nonempty : sample_metrics <> ∅.
Proof.
  intros H.
  apply (f_equal (fun m : gmap string Py.value => m !! "low_stock_items")) in H.
  vm_compute in H. discriminate.
Qed.


Lemma invoices_query_fails :
  plain_engine Db.q_total_revenue [] db_without_invoices
  = inl "relation invoices does not exist".
Proof. vm_refl. Qed.

Lemma business_metrics_all_or_nothing_witness :
  exists m w',
    Db.get_business_metrics plain_engine (Db.at_rest db_without_invoices)
    = (Py.Returned m, w') /\
    m = ∅.
Proof.
  destruct (business_metrics_all_or_nothing plain_engine
              (Db.at_rest db_without_invoices)
              (metric_queries_read_only never_rejects unsupported))
    as (m & w' & Hrun & Hfail & _).
  exists m, w'. split; [exact Hrun|].
  apply (Hfail Db.q_total_revenue "relation invoices does not exist").
  - apply metric_query_elem. right. left. reflexivity.
  - exact invoices_query_fails.
Defined.

(** C1 as stated fails when one query fails: with the invoices table gone,
    the count of active customers (2) is dropped together with the revenue,
    where the specified aggregator keeps it and defaults the revenue alone. *)
Lemma business_metrics_drop_succeeding_metric :
  plain_engine Db.q_active_customers [] db_without_invoices
  = inr (Sql.mkResult ["count"] [[Py.VInt 2]], db_without_invoices) /\
  plain_engine Db.q_total_revenue [] db_without_invoices
  = inl "relation invoices does not exist" /\
  fst (business_metrics_as_specified plain_engine
         (Db.at_rest db_without_invoices))
  = Py.Returned partial_metrics /\
  fst (Db.get_business_metrics plain_engine (Db.at_rest db_without_invoices))
  = Py.Returned ∅ /\
  fst (Db.get_business_metrics plain_engine (Db.at_rest db_without_invoices))
  <> fst (business_metrics_as_specified plain_engine
            (Db.at_rest db_without_invoices)).
Proof.
  assert (Hspec : fst (business_metrics_as_specified plain_engine
                         (Db.at_rest db_without_invoices))
                  = Py.Returned partial_metrics)
    by vm_refl.
  assert (Hcode : fst (Db.get_business_metrics plain_engine
                         (Db.at_rest db_without_invoices))
                  = Py.Returned ∅)
    by vm_refl.
  split; [vm_refl|]. split; [exact invoices_query_fails|].
  split; [exact Hspec|]. split; [exact Hcode|].
  rewrite Hspec, Hcode. intros H.
  apply (f_equal (fun r : Py.outcome (gmap string Py.value) =>
                    match r with
                    | Py.Returned m => m !! "active_customers"
                    | Py.Raised _ => None
                    end)) in H.
  vm_compute in H. discriminate.
Qed.

(* ===================================================================== *)
(** * Properties of the administration pages *)
(* ===================================================================== *)

Section DictFacts.
Import Py.

Lemma dict_get_set_eq {A} (k : string) (v : A) (d : list (string * A)) :
  dict_get k (dict_set k v d) = Some v.
Proof.
  induction d as [|[k' v'] d IH]; simpl.
  - by rewrite String.eqb_refl.
  - destruct (String.eqb_spec k k') as [->|Hne]; simpl.
    + by rewrite String.eqb_refl.
    + by destruct (String.eqb_spec k k').
Qed.

Lemma dict_get_set_ne {A} (k k' : string) (v : A) (d : list (string * A)) :
  k <> k' -> dict_get k (dict_set k' v d) = dict_get k d.
Proof.
  intros Hne. induction d as [|[k0 v0] d IH]; simpl.
  - by destruct (String.eqb_spec k k').
  - destruct (String.eqb_spec k' k0) as [<-|Hne0]; simpl.
    + by destruct (String.eqb_spec k k').
    + destruct (String.eqb_spec k k0); [done|]. apply IH.
Qed.
End DictFacts.

Section PageRuns.
Import Py Sql Db Admin.

(** The page stops at its first statement: the expression [db.engine.text]
    raises, the handler of the page shows the error, and the session is
    closed without a statement sent. *)
Lemma admin_page_run (run : Engine) (str : value -> string)
    (selectbox : list value -> option value) (size_index : nat)
    (number_input : Z -> Z -> Z)
    (summary : list (list value) -> M World unit)
    (display : value -> DataFrame -> M World unit)
    (not_a_count : value -> M World (option DataFrame)) (w : World) :
  show_database_admin run str selectbox size_index number_input summary
    display not_a_count w
  = (Returned None,
     mkWorld (committed w) (committed w) (ui w ++ page_refused)).
Proof.
  unfold show_database_admin, with_connection, try_except, bind, engine_text,
    raise, st_error, st_info, ret, page_refused.
  simpl. by rewrite <- app_assoc.
Qed.

(** A restore without [json] bound: the handler around the whole restore
    reports the [UnboundLocalError] as a file that cannot be read. *)
Lemma restore_backup_unbound (run : Engine) (file : Upload) (w : World) :
  restore_backup run false file w
  = (Returned tt,
     mkWorld (committed w) (working w)
       (ui w ++ [StError ("Error reading backup file: "
                          ++ unbound_local "json")])).
Proof. reflexivity. Qed.

(** A run of the backup page in which only "Restore from Backup" is
    pressed. *)
Lemma restore_run (run : Engine) (str : value -> string)
    (held : list string -> list (list value) -> list (list value))
    (backup_tables : list string) (file : Upload) (w : World) :
  show_database_backup run str held backup_tables false (Some file) true w
  = (Returned None,
     mkWorld (committed w) (working w) (ui w ++ restore_refused)).
Proof.
  unfold show_database_backup, bind, ret, st_warning.
  cbv beta iota. rewrite restore_backup_unbound. simpl.
  unfold restore_refused. by rewrite <- app_assoc.
Qed.
End PageRuns.

Lemma sample_db_customers_table :
  sample_db !! "customers"
  = Some (status_table ["Active"; "Prospect"; "Active"]).
Proof. vm_refl. Qed.

Lemma customers_db_customers_table :
  customers_db !! "customers" = Some five_customers.
Proof. vm_refl. Qed.

Lemma invoices_emptied_db_table :
  invoices_emptied_db !! "invoices"
  = Some (Sql.mkTable (Sql.columns dated_invoices) []).
Proof. vm_refl. Qed.

Lemma invoices_backup_run :
  Admin.show_database_backup plain_engine sample_str held_as_read
    ["invoices"] true None false (Db.at_rest invoices_db)
  = (Py.Returned (Some invoices_document),
     Db.mkWorld invoices_db invoices_db
       [Db.StSuccess "Backup created successfully!";
        Db.StWarning "⚠️ Restore will overwrite existing data!"]).
Proof. vm_refl. Qed.

Lemma inventory_first_page :
  Db.get_table_data plain_engine "inventory" (Db.LimitText 25 0)
    (Db.at_rest sample_db)
  = (Py.Returned (Db.mkFrame (Sql.columns sample_inventory)
                    (Sql.rows sample_inventory)),
     Db.at_rest sample_db).
Proof. vm_refl. Qed.

(** C6 at its failing input: the administration page opened on the sample
    database.  Whatever the operator picks, the run ends at the first
    statement of the page: [db.engine.text] raises, the page shows
    "Database connection error" and no page of rows is fetched; no
    statement is sent and the database stays as it was.  Asked directly,
    [get_table_data] with the limit text of page 1 at 25 records per page
    delivers the three rows of the inventory. *)
Theorem admin_page_fetches_no_page (str : Py.value -> string)
    (selectbox : list Py.value -> option Py.value) (size_index : nat)
    (number_input : Z -> Z -> Z)
    (summary : list (list Py.value) -> Py.M Db.World unit)
    (display : Py.value -> Db.DataFrame -> Py.M Db.World unit)
    (not_a_count : Py.value -> Py.M Db.World (option Db.DataFrame)) :
  Admin.show_database_admin plain_engine str selectbox size_index
    number_input summary display not_a_count (Db.at_rest sample_db)
  = (Py.Returned None, Db.mkWorld sample_db sample_db page_refused) /\
  Db.get_table_data plain_engine "inventory" (Db.LimitText 25 0)
    (Db.at_rest sample_db)
  = (Py.Returned (Db.mkFrame (Sql.columns sample_inventory)
                    (Sql.rows sample_inventory)),
     Db.at_rest sample_db) /\
  length (Sql.rows sample_inventory) = 3%nat.
Proof.
  split; [|split; [exact inventory_first_page|reflexivity]].
  by rewrite admin_page_run.
Qed.

(** C3 at its failing input: the invoices are backed up, and the document
    is restored, in a later run of the page, onto a database whose invoices
    table is empty.  The backup offers the document; the restore stops at
    [json.loads] with [json] unbound, shows "Error reading backup file" and
    leaves the table empty: none of the two rows comes back. *)
Theorem backup_then_restore_restores_nothing :
  Admin.show_database_backup plain_engine sample_str held_as_read
    ["invoices"] true None false (Db.at_rest invoices_db)
  = (Py.Returned (Some invoices_document),
     Db.mkWorld invoices_db invoices_db
       [Db.StSuccess "Backup created successfully!";
        Db.StWarning "⚠️ Restore will overwrite existing data!"]) /\
  Admin.show_database_backup plain_engine sample_str held_as_read
    ["invoices"] false (Some (inr invoices_document)) true
    (Db.at_rest invoices_emptied_db)
  = (Py.Returned None,
     Db.mkWorld invoices_emptied_db invoices_emptied_db restore_refused) /\
  invoices_emptied_db !! "invoices"
  = Some (Sql.mkTable (Sql.columns dated_invoices) []) /\
  length (Sql.rows dated_invoices) = 2%nat.
Proof.
  split; [exact invoices_backup_run|].
  split; [by rewrite restore_run|].
  split; [exact invoices_emptied_db_table|reflexivity].
Qed.

(** C4 at its failing input, the scenario of the specification: the backup
    that lists the one customer Ann is restored onto a customers table of
    five rows.  Whatever the engine, the restore stops at [json.loads] with
    [json] unbound and shows "Error reading backup file": nothing is
    deleted, nothing is inserted, and the table keeps its five rows. *)
Theorem restore_keeps_the_five_customers (run : Sql.Engine)
    (str : Py.value -> string)
    (held : list string -> list (list Py.value) -> list (list Py.value)) :
  Admin.show_database_backup run str held default_selection false
    (Some (inr ann_backup)) true (Db.at_rest customers_db)
  = (Py.Returned None, Db.mkWorld customers_db customers_db restore_refused) /\
  customers_db !! "customers" = Some five_customers /\
  length (Sql.rows five_customers) = 5%nat.
Proof.
  split; [by rewrite restore_run|].
  split; [exact customers_db_customers_table|reflexivity].
Qed.

(** C7 at its failing input: a backup of two tables without records, of
    which [orders] does not exist and [customers] does, is restored onto
    the sample database.  Whatever the engine, the restore stops before the
    first table: the failure is not caught for one table, the restore of
    [customers] does not proceed (the table keeps its three rows), and the
    report names no table: it is "Error reading backup file". *)
Theorem restore_stops_before_first_table (run : Sql.Engine)
    (str : Py.value -> string)
    (held : list string -> list (list Py.value) -> list (list Py.value)) :
  Admin.show_database_backup run str held default_selection false
    (Some (inr two_table_backup)) true (Db.at_rest sample_db)
  = (Py.Returned None, Db.mkWorld sample_db sample_db restore_refused) /\
  sample_db !! "orders" = None /\
  sample_db !! "customers"
  = Some (status_table ["Active"; "Prospect"; "Active"]).
Proof.
  split; [by rewrite restore_run|].
  split; [vm_refl|exact sample_db_customers_table].
Qed.

(** The statements of the model print as the SQL text of the source. *)
Lemma statement_texts :
  Sql.sql_text Db.q_active_customers
  = "SELECT COUNT(*) FROM customers WHERE status = 'Active'" /\
  Sql.sql_text Db.q_total_revenue
  = "SELECT SUM(amount) FROM invoices WHERE status = 'Paid'" /\
  Sql.sql_text Db.q_low_stock_items
  = "SELECT COUNT(*) FROM inventory WHERE current_stock <= reorder_point" /\
  Sql.sql_text Db.q_total_employees
  = "SELECT COUNT(*) FROM employees WHERE status = 'Active'" /\
  Sql.sql_text Db.q_active_projects
  = "SELECT COUNT(*) FROM projects WHERE status IN ('Planning', 'In Progress')" /\
  Sql.sql_text (Db.table_query "customers" Db.LimitNone)
  = "SELECT * FROM customers" /\
  Sql.sql_text (Sql.DeleteFrom "customers") = "DELETE FROM customers" /\
  Sql.sql_text (Sql.InsertInto "customers" (map fst ann_record)
                  (length (map snd ann_record)))
  = "INSERT INTO customers (id, name) VALUES (%s, %s)".
Proof. repeat split; vm_refl. Qed.

(* ===================================================================== *)
(** * Further properties of the key figures and the date filter *)
(* ===================================================================== *)

Section FilterFacts.
Import Kpi Processor.

Lemma filter_filter_and {A} (f g : A -> bool) (l : list A) :
  List.filter f (List.filter g l) = List.filter (fun x => g x && f x) l.
Proof.
  induction l as [|x l IH]; simpl; [done|].
  destruct (g x); simpl; [destruct (f x); by rewrite IH | done].
Qed.

Lemma filter_implied {A} (f g : A -> bool) (l : list A) :
  (forall x, x ∈ l -> f x = true -> g x = true) ->
  List.filter f (List.filter g l) = List.filter f l.
Proof.
  intros H. rewrite filter_filter_and. apply filter_ext_in.
  intros x Hx%list_elem_of_In. specialize (H x Hx).
  destruct (f x); [by rewrite H|by rewrite andb_false_r].
Qed.
End FilterFacts.

(** X1.  Filtering by one date range and then by another is filtering by
    their intersection, from the later start to the earlier end; in
    particular filtering twice by the same range changes nothing more. *)
Theorem filter_by_date_compose (data : Kpi.DataFrame) (s1 e1 s2 e2 : Z) :
  Processor.filter_data_by_date
    (Processor.filter_data_by_date data s1 e1) s2 e2
  = Processor.filter_data_by_date data (Z.max s1 s2) (Z.min e1 e2).
Proof.
  unfold Processor.filter_data_by_date.
  destruct (Kpi.has_column "date" data) eqn:Hdate; simpl.
  - rewrite has_column_select, Hdate. simpl. unfold Kpi.select. simpl.
    f_equal. rewrite filter_filter_and. apply filter_ext. intros r.
    apply eq_true_iff_eq.
    rewrite !andb_true_iff, !Z.leb_le. lia.
  - by rewrite Hdate.
Qed.

Section GrowthFacts.
Import Kpi Processor.

Lemma fold_max_upper (ds : list Z) (d x : Z) :
  x ∈ d :: ds -> x <= fold_left Z.max ds d.
Proof.
  revert d. induction ds as [|y ds IH]; intros d; simpl.
  - intros [->|?%elem_of_nil]%elem_of_cons; [lia|done].
  - intros [->|[->|Hx]%elem_of_cons]%elem_of_cons.
    + etransitivity; [|apply fold_max_ge]. lia.
    + etransitivity; [|apply fold_max_ge]. lia.
    + apply IH. by apply list_elem_of_further.
Qed.

(** The latest date is the date of some row and bounds every row. *)
Lemma date_max_spec (data : DataFrame) (latest : Z) :
  date_max data = Some latest <->
  (exists r, r ∈ rows data /\ date r = latest) /\
  (forall r, r ∈ rows data -> date r <= latest).
Proof.
  unfold date_max. destruct (rows data) as [|r0 rs] eqn:E; simpl.
  - split; [done|]. by intros [(r & ?%elem_of_nil & _) _].
  - pose proof (fold_max_elem (map date rs) (date r0)) as Hin.
    change (date r0 :: map date rs) with (map date (r0 :: rs)) in Hin.
    apply list_elem_of_fmap in Hin as (r' & Hd & Hr').
    assert (Hub : forall r, r ∈ r0 :: rs ->
                    date r <= fold_left Z.max (map date rs) (date r0)).
    { intros r Hr. apply fold_max_upper.
      change (date r0 :: map date rs) with (map date (r0 :: rs)).
      by apply list_elem_of_fmap_2. }
    split.
    + intros [= <-]. split; [by exists r'|done].
    + intros [(r & Hr & Hdr) Hall]. f_equal.
      specialize (Hall r' Hr'). specialize (Hub r Hr). lia.
Qed.

Lemma date_max_rows (data : DataFrame) :
  rows data <> [] -> exists latest, date_max data = Some latest.
Proof. unfold date_max. destruct (rows data); [done|]. simpl. eauto. Qed.

Lemma growth_from_zero (current : Q) : growth current 0 = 0%Q.
Proof. reflexivity. Qed.

(** On a frame with dates and rows, each growth rate is the source's
    conditional expression over the aggregates of the two windows. *)
Lemma kpi_growth_lookup (data : DataFrame) :
  has_column "date" data = true -> rows data <> [] ->
  let m := get_kpi_metrics data in
  let current := current_data data in
  let previous := previous_data data in
  m !! "revenue_growth"
  = Some (growth (period_revenue current) (period_revenue previous)) /\
  m !! "order_growth"
  = Some (growth (period_orders current) (period_orders previous)) /\
  m !! "customer_growth"
  = Some (growth (period_customers current) (period_customers previous)) /\
  m !! "aov_growth"
  = Some (growth (period_aov current) (period_aov previous)).
Proof.
  intros Hdate Hrows m current previous. subst m.
  assert (Hprev : has_column "date" previous = true) by done.
  assert (Hcur : has_column "date" current = true) by done.
  unfold get_kpi_metrics.
  destruct (empty data) eqn:Hempty;
    [by apply (empty_rows "date" data Hdate) in Hempty|].
  rewrite Hdate. fold current previous.
  destruct (empty previous) eqn:Hpe; simpl.
  { apply (empty_rows "date" previous Hprev) in Hpe.
    destruct (no_rows_aggregates previous Hpe) as (-> & -> & -> & ->).
    rewrite !growth_from_zero. repeat split; by simplify_map_eq. }
  destruct (empty current) eqn:Hce; simpl.
  { apply (empty_rows "date" current Hcur) in Hce.
    by apply (current_data_rows data) in Hce. }
  unfold period_customers.
  change (has_column "customer" current) with (has_column "customer" data).
  change (has_column "customer" previous) with (has_column "customer" data).
  destruct (has_column "customer" data); repeat split; by simplify_map_eq.
Qed.

(** The windows of the last 60 days of a frame are the windows of the
    frame. *)
Lemma recent_rows_windows (data : DataFrame) (latest : Z) :
  has_column "date" data = true ->
  date_max data = Some latest ->
  let recent :=
    filter_data_by_date data (latest - timedelta_days 60) latest in
  rows recent <> [] /\
  current_data recent = current_data data /\
  previous_data recent = previous_data data.
Proof.
  intros Hdate Hmax recent.
  pose proof (proj1 (date_max_spec data latest) Hmax) as [(r0 & Hr0 & Hd0) Hub].
  assert (Hrecent : recent
            = select (fun r => (latest - timedelta_days 60 <=? date r)
                               && (date r <=? latest)) data).
  { unfold recent, filter_data_by_date. by rewrite Hdate. }
  assert (Hin : forall r, r ∈ rows recent <->
                  r ∈ rows data /\ latest - timedelta_days 60 <= date r).
  { intros r. rewrite Hrecent. unfold select. simpl.
    rewrite list_elem_of_In, filter_In, <- list_elem_of_In.
    rewrite andb_true_iff, !Z.leb_le.
    split; [tauto|]. intros [Hr ?]. specialize (Hub r Hr). tauto. }
  assert (Hr0' : r0 ∈ rows recent).
  { apply Hin. split; [done|]. unfold timedelta_days. lia. }
  assert (Hmax' : date_max recent = Some latest).
  { apply date_max_spec. split; [by exists r0|].
    intros r [Hr _]%Hin. by apply Hub. }
  split; [intros Hnil; rewrite Hnil in Hr0'; by apply elem_of_nil in Hr0'|].
  unfold current_data, previous_data, previous_start, current_start.
  rewrite Hmax', Hmax. simpl. rewrite Hrecent. unfold select. simpl.
  split; f_equal; apply filter_implied; intros r Hr;
    rewrite ?andb_true_iff, !Z.leb_le, ?Z.ltb_lt;
    specialize (Hub r Hr); unfold timedelta_days; lia.
Qed.
End GrowthFacts.

(** X2.  The growth rates look at the last 60 days only: computed from
    the rows of the 60 days up to the latest date, as the date filter
    selects them, all four are what they are on the whole history. *)
Theorem kpi_growth_of_recent_rows (data : Kpi.DataFrame) (latest : Z)
    (key : string) :
  Kpi.date_max data = Some latest ->
  key ∈ growth_keys ->
  Kpi.get_kpi_metrics
    (Processor.filter_data_by_date data
       (latest - Kpi.timedelta_days 60) latest) !! key
  = Kpi.get_kpi_metrics data !! key.
Proof.
  intros Hmax Hkey.
  destruct (Kpi.has_column "date" data) eqn:Hdate;
    [|unfold Processor.filter_data_by_date; by rewrite Hdate].
  destruct (recent_rows_windows data latest Hdate Hmax) as (Hne & Hcur & Hprev).
  assert (Hrows : Kpi.rows data <> []).
  { intros Hnil. unfold Kpi.date_max in Hmax. by rewrite Hnil in Hmax. }
  assert (Hdate' : Kpi.has_column "date"
            (Processor.filter_data_by_date data
               (latest - Kpi.timedelta_days 60) latest) = true).
  { unfold Processor.filter_data_by_date. by rewrite Hdate. }
  pose proof (kpi_growth_lookup _ Hdate' Hne) as H1.
  pose proof (kpi_growth_lookup data Hdate Hrows) as H2.
  cbv zeta in H1, H2. rewrite Hcur, Hprev in H1.
  destruct H1 as (R1 & O1 & C1 & A1). destruct H2 as (R2 & O2 & C2 & A2).
  unfold growth_keys in Hkey.
  rewrite !elem_of_cons, elem_of_nil in Hkey.
  destruct Hkey as [->|[->|[->|[->|[]]]]]; congruence.
Qed.

Lemma ten_days_latest :
  Kpi.date_max ten_days = Some (Kpi.timedelta_days 10).
Proof. reflexivity. Qed.

Lemma kpi_growth_of_recent_rows_witness :
  Kpi.get_kpi_metrics
    (Processor.filter_data_by_date ten_days
       (Kpi.timedelta_days 10 - Kpi.timedelta_days 60) (Kpi.timedelta_days 10))
    !! "order_growth"
  = Kpi.get_kpi_metrics ten_days !! "order_growth".
Proof.
  apply (kpi_growth_of_recent_rows ten_days (Kpi.timedelta_days 10)
           "order_growth" ten_days_latest).
  unfold growth_keys. set_solver.
Defined.

(** X3.  Without a row dated in the previous window, from 60 days to 30
    days before the latest date (the latter excluded), all four growth
    rates are 0; so they are for every history shorter than 30 days. *)
Theorem kpi_growth_needs_previous_window (data : Kpi.DataFrame) (key : string) :
  (forall latest r,
     Kpi.date_max data = Some latest -> r ∈ Kpi.rows data ->
     ~ (latest - Kpi.timedelta_days 60 <= Kpi.date r
        < latest - Kpi.timedelta_days 30)) ->
  key ∈ growth_keys ->
  Kpi.get_kpi_metrics data !! key = Some 0%Q.
Proof.
  intros Hwin Hkey.
  unfold growth_keys in Hkey. rewrite !elem_of_cons, elem_of_nil in Hkey.
  destruct (Kpi.empty data) eqn:Hempty.
  { unfold Kpi.get_kpi_metrics. rewrite Hempty.
    destruct Hkey as [->|[->|[->|[->|[]]]]]; reflexivity. }
  destruct (Kpi.has_column "date" data) eqn:Hdate.
  - assert (Hrows : Kpi.rows data <> []).
    { intros Hnil%(empty_rows "date" data Hdate). congruence. }
    destruct (date_max_rows data Hrows) as [latest Hmax].
    assert (Hprev : Kpi.rows (Kpi.previous_data data) = []).
    { destruct (Kpi.rows (Kpi.previous_data data)) as [|r rs] eqn:E; [done|].
      assert (Hr : r ∈ Kpi.rows (Kpi.previous_data data))
        by (rewrite E; apply list_elem_of_here).
      apply (kpi_windows data latest r Hmax) in Hr as [Hr Hd].
      by destruct (Hwin latest r Hmax Hr). }
    destruct (no_rows_aggregates _ Hprev) as (Hr & Ho & Hc & Ha).
    pose proof (kpi_growth_lookup data Hdate Hrows) as H. cbv zeta in H.
    rewrite Hr, Ho, Hc, Ha, !growth_from_zero in H.
    destruct H as (? & ? & ? & ?).
    destruct Hkey as [->|[->|[->|[->|[]]]]]; done.
  - unfold Kpi.get_kpi_metrics. rewrite Hempty, Hdate.
    destruct Hkey as [->|[->|[->|[->|[]]]]]; by simplify_map_eq.
Qed.

Lemma ten_days_one_window (latest : Z) (r : Kpi.Row) :
  Kpi.date_max ten_days = Some latest -> r ∈ Kpi.rows ten_days ->
  ~ (latest - Kpi.timedelta_days 60 <= Kpi.date r
     < latest - Kpi.timedelta_days 30).
Proof.
  rewrite ten_days_latest. intros [= <-]. unfold ten_days. simpl.
  rewrite !elem_of_cons, elem_of_nil. unfold Kpi.timedelta_days.
  intros [->|[->|[->|[->|[]]]]]; simpl; lia.
Qed.

Lemma kpi_growth_needs_previous_window_witness :
  Kpi.get_kpi_metrics ten_days !! "revenue_growth" = Some 0%Q.
Proof.
  apply (kpi_growth_needs_previous_window ten_days "revenue_growth"
           ten_days_one_window).
  unfold growth_keys. set_solver.
Defined.

Section CountFacts.
Import Kpi.

Lemma remove_dups_length_le {A} `{EqDecision A} (l : list A) :
  (length (remove_dups l) <= length l)%nat.
Proof.
  induction l as [|x l IH]; simpl; [lia|].
  destruct (decide_rel elem_of x l); simpl; lia.
Qed.

Lemma omap_length_le {A B} (f : A -> option B) (l : list A) :
  (length (omap f l) <= length l)%nat.
Proof.
  induction l as [|x l IH]; [simpl; lia|].
  change (omap f (x :: l))
    with (match f x with Some y => y :: omap f l | None => omap f l end).
  destruct (f x); simpl; lia.
Qed.

Lemma customers_le_orders (part : DataFrame) :
  (0 <= customer_nunique part <= len part)%Z.
Proof.
  unfold customer_nunique, len.
  pose proof (remove_dups_length_le (omap customer (rows part))) as H.
  pose proof (omap_length_le customer (rows part)) as H'.
  lia.
Qed.



End CountFacts.

(** X4.  In every result the number of active customers lies between 0
    and the number of orders. *)
Theorem kpi_customers_at_most_orders (data : Kpi.DataFrame) :
  exists customers orders : Q,
    Kpi.get_kpi_metrics data !! "active_customers" = Some customers /\
    Kpi.get_kpi_metrics data !! "total_orders" = Some orders /\
    (0 <= customers <= orders)%Q.
Proof.
  unfold Kpi.get_kpi_metrics.
  destruct (Kpi.empty data).
  { exists 0%Q, 0%Q. repeat split; done. }
  exists (if Kpi.has_column "customer" data
          then inject_Z (Kpi.customer_nunique data) else 0%Q),
         (inject_Z (Kpi.len data)).
  split; [|split].
  - destruct (Kpi.has_column "date" data);
      [destruct (negb _ && negb _);
       [destruct (Kpi.has_column "customer" data)|]|];
      by simplify_map_eq.
  - destruct (Kpi.has_column "date" data);
      [destruct (negb _ && negb _);
       [destruct (Kpi.has_column "customer" data)|]|];
      by simplify_map_eq.
  - pose proof (customers_le_orders data) as [H0 H1].
    change 0%Q with (inject_Z 0).
    destruct (Kpi.has_column "customer" data); rewrite <- !Zle_Qle;
      unfold Kpi.len in *; lia.
Qed.


Section MissingColumns.
Import Kpi.



End MissingColumns.



(* ===================================================================== *)
(** * Properties of [validate_data] *)
(* ===================================================================== *)

Section ValidateFacts.
Import Quality.
Variable cell : Type.
Variable isnull : cell -> bool.
Variable same : cell -> cell -> bool.
Variable numeric_text : list cell -> bool.
Variable fixed1 : Q -> string.

Lemma percentage_pos (a b : Z) :
  0 < a -> 0 < b -> (0 < inject_Z a / inject_Z b * 100)%Q.
Proof.
  intros Ha Hb.
  assert (Ha' : (0 < inject_Z a)%Q) by (change 0%Q with (inject_Z 0); by rewrite <- Zlt_Qlt).
  assert (Hb' : (0 < inject_Z b)%Q) by (change 0%Q with (inject_Z 0); by rewrite <- Zlt_Qlt).
  assert (0 < inject_Z a / inject_Z b)%Q by (apply Qlt_shift_div_l; lra).
  lra.
Qed.

(** A missing value sits in some row, under some name. *)
Lemma isnull_count_pos (df : Frame cell) :
  frame_ok df -> 0 < isnull_count cell isnull df ->
  0 < len cell df * Z.of_nat (length (names df)).
Proof.
  intros [_ Hrect] Hpos. unfold isnull_count, len in *.
  destruct (List.filter isnull (concat (records df))) as [|c cs] eqn:E;
    [simpl in Hpos; lia|].
  assert (Hc : In c (concat (records df))).
  { eapply proj1. apply filter_In. rewrite E. by left. }
  apply in_concat in Hc as (row & Hrow%list_elem_of_In & Hc%list_elem_of_In).
  pose proof (proj1 (Forall_forall _ _) Hrect row Hrow) as Hlen.
  destruct (records df) as [|r rs]; [by apply elem_of_nil in Hrow|].
  destruct row; [by apply elem_of_nil in Hc|]. simpl in *. lia.
Qed.

Lemma duplicated_count_pos (df : Frame cell) :
  0 < duplicated_count cell same df -> 0 < len cell df.
Proof.
  unfold duplicated_count, len. intros H.
  destruct (records df); [simpl in H; lia|simpl; lia].
Qed.

(** The loop over the columns only appends. *)
Lemma column_issues (df : Frame cell) (cols : list (nat * string))
    (found : list string) :
  fold_left
    (fun issues '(i, col) =>
       if numeric_text (column cell df i)
       then (issues ++ [("Column '" ++ col
                         ++ "' appears to be numeric but stored as text")%string])%list
       else issues)
    cols found = [] <->
  found = [] /\
  forall i col, (i, col) ∈ cols -> numeric_text (column cell df i) = false.
Proof.
  revert found. induction cols as [|[i col] cols IH]; intros found; simpl.
  - split; [intros ->; split; [done|by intros ? ? ?%elem_of_nil]|by intros [-> _]].
  - rewrite IH. destruct (numeric_text (column cell df i)) eqn:E.
    + split; [intros [H _]; by destruct found|].
      intros [_ H]. specialize (H i col (list_elem_of_here _ _)). congruence.
    + split; intros [-> H]; (split; [done|]).
      * intros i' col' [[= -> ->]|?]%elem_of_cons; [done|by eapply H].
      * intros i' col' Hin. eapply H. by apply list_elem_of_further.
Qed.
End ValidateFacts.

(** X7.  The quality score lies between 0 and 100.  It is 100 exactly
    when the frame has no missing value and no duplicate row, and no issue
    is listed exactly when, besides, no column is found to hold numbers as
    text. *)
Theorem validate_data_score (cell : Type) (isnull : cell -> bool)
    (same : cell -> cell -> bool) (numeric_text : list cell -> bool)
    (fixed1 : Q -> string) (df : Quality.Frame cell) :
  frame_ok df ->
  let results := Quality.validate_data cell isnull same numeric_text fixed1 df in
  (0 <= Quality.quality_score results <= 100)%Q /\
  (Quality.quality_score results == 100 <->
     Quality.missing_values results = 0 /\ Quality.duplicates results = 0) /\
  (Quality.issues results = [] <->
     Quality.missing_values results = 0 /\ Quality.duplicates results = 0 /\
     forall i, (i < length (Quality.names df))%nat ->
       numeric_text (Quality.column cell df i) = false).
Proof.
  intros Hok results. subst results. unfold Quality.validate_data.
  set (m := Quality.isnull_count cell isnull df).
  set (d := Quality.duplicated_count cell same df).
  assert (Hm0 : 0 <= m) by (unfold m, Quality.isnull_count; lia).
  assert (Hd0 : 0 <= d) by (unfold d, Quality.duplicated_count; lia).
  set (mp := (inject_Z m
              / inject_Z (Quality.len cell df
                          * Z.of_nat (length (Quality.names df))) * 100)%Q).
  set (dp := (inject_Z d / inject_Z (Quality.len cell df) * 100)%Q).
  assert (Hmp : 0 < m -> (0 < mp)%Q).
  { intros H. apply percentage_pos; [done|].
    by apply (isnull_count_pos cell isnull). }
  assert (Hdp : 0 < d -> (0 < dp)%Q).
  { intros H. apply percentage_pos; [done|].
    by apply (duplicated_count_pos cell same). }
  assert (Hcols : forall P : nat -> Prop,
            (forall i col, (i, col) ∈ imap pair (Quality.names df) -> P i) <->
            (forall i, (i < length (Quality.names df))%nat -> P i)).
  { intros P. split.
    - intros H i Hi. apply lookup_lt_is_Some_2 in Hi as [col Hcol].
      apply (H i col). apply list_elem_of_lookup. exists i.
      by rewrite list_lookup_imap, Hcol.
    - intros H i col [j Hj]%list_elem_of_lookup.
      rewrite list_lookup_imap in Hj.
      destruct (Quality.names df !! j) as [c|] eqn:E; [|done].
      injection Hj as <- <-. apply H. by eapply lookup_lt_Some. }
  destruct (Z.ltb_spec 0 m) as [Hm|Hm]; destruct (Z.ltb_spec 0 d) as [Hd|Hd];
    cbn [Quality.quality_score Quality.missing_values Quality.duplicates
         Quality.issues];
    try specialize (Hmp Hm); try specialize (Hdp Hd).
  - split; [|split].
    + destruct (Kpi.gt0 _) eqn:E; [apply gt0_true in E|]; lra.
    + split; [|lia]. destruct (Kpi.gt0 _) eqn:E; [apply gt0_true in E|]; lra.
    + rewrite column_issues. split; [by intros [? _]|lia].
  - split; [|split].
    + destruct (Kpi.gt0 _) eqn:E; [apply gt0_true in E|]; lra.
    + split; [|lia]. destruct (Kpi.gt0 _) eqn:E; [apply gt0_true in E|]; lra.
    + rewrite column_issues. split; [by intros [? _]|lia].
  - split; [|split].
    + destruct (Kpi.gt0 _) eqn:E; [apply gt0_true in E|]; lra.
    + split; [|lia]. destruct (Kpi.gt0 _) eqn:E; [apply gt0_true in E|]; lra.
    + rewrite column_issues. split; [by intros [? _]|lia].
  - split; [|split].
    + split; [done|]. apply Qle_refl.
    + split; [intros _; lia|reflexivity].
    + rewrite column_issues, Hcols. split.
      * intros [_ H]. repeat split; [lia..|done].
      * intros (_ & _ & H). by split.
Qed.

Lemma survey_ok : frame_ok survey.
Proof.
  split; [by apply (bool_decide_unpack _)|].
  unfold survey. simpl. repeat (apply Forall_cons; split; [reflexivity|]).
  apply Forall_nil_2.
Qed.

Lemma survey_findings :
  Quality.missing_values survey_checks = 1 /\
  Quality.duplicates survey_checks = 1 /\
  (Quality.quality_score survey_checks == 125 # 2)%Q.
Proof. by vm_compute. Qed.

Lemma validate_data_score_witness :
  (0 <= Quality.quality_score survey_checks <= 100)%Q /\
  Quality.missing_values survey_checks = 1 /\
  Quality.duplicates survey_checks = 1 /\
  (Quality.quality_score survey_checks == 125 # 2)%Q.
Proof.
  split; [|exact survey_findings].
  exact (proj1 (validate_data_score (option Z) _ _ _ _ survey survey_ok)).
Defined.

(* ===================================================================== *)
(** * Further properties of [DatabaseManager] *)
(* ===================================================================== *)

Section StatusFacts.
Import Py Sql Db.

(** The WHERE clauses on the status, row by row. *)
Lemma status_equals (s : string) (cols : list string) (row : list value) :
  is_true (eval_cond cols row (CEq (Col "status") (StrLit s)))
  = has_status [s] cols row.
Proof.
  unfold has_status. cbn [eval_cond eval_expr].
  destruct (cell cols row "status") as [[| | | |s'| |]|]; try reflexivity.
  cbn [compare_eq]. destruct (String.eqb_spec s' s) as [->|Hne]; simpl.
  - symmetry. apply bool_decide_eq_true, list_elem_of_here.
  - symmetry. apply bool_decide_eq_false.
    by intros [?|?%elem_of_nil]%elem_of_cons.
Qed.

Lemma status_among (choices : list string) (cols : list string)
    (row : list value) :
  is_true (eval_cond cols row (CIn (Col "status") choices))
  = has_status choices cols row.
Proof.
  unfold has_status. cbn [eval_cond eval_expr].
  destruct (cell cols row "status") as [[| | | |s| |]|]; try reflexivity.
  destruct (existsb (String.eqb s) choices) eqn:E; simpl; symmetry.
  - apply bool_decide_eq_true. apply existsb_exists in E as (x & Hx & Heq).
    apply String.eqb_eq in Heq as ->. by apply list_elem_of_In.
  - apply bool_decide_eq_false. intros Hin.
    assert (existsb (String.eqb s) choices = true); [|congruence].
    apply existsb_exists. exists s. split; [by apply list_elem_of_In|].
    apply String.eqb_refl.
Qed.

(** [SUM] adds up the numbers it is given and skips the NULLs; as a float
    defaulted by [or 0], the result is their sum. *)
Lemma sum_cells_float (cells : list value) (acc : option Q) (v : value) :
  sum_cells cells acc = Some v ->
  exists x,
    float (or_else v (VInt 0)) = Some (VFloat x) /\
    (x == default 0 acc
          + fold_right (fun c s => default 0 (numeric c) + s) 0 cells)%Q.
Proof.
  revert acc. induction cells as [|c cells IH]; intros acc; simpl.
  - intros [= <-]. destruct acc as [a|]; simpl.
    + unfold or_else. simpl. unfold is_zero.
      destruct (Qeq_bool a 0) eqn:E; simpl.
      * apply Qeq_bool_eq in E. exists (inject_Z 0). split; [done|].
        rewrite E. reflexivity.
      * exists a. split; [done|]. ring.
    + exists (inject_Z 0). split; [done|]. reflexivity.
  - assert (Hnum : forall x, numeric c = Some x ->
              sum_cells cells
                (Some match acc with Some a => (a + x)%Q | None => x end)
              = Some v ->
              exists y,
                float (or_else v (VInt 0)) = Some (VFloat y) /\
                (y == default 0 acc
                      + (x + fold_right (fun c s => default 0 (numeric c) + s)
                               0 cells))%Q).
    { intros x _ H. destruct (IH _ H) as (y & Hy & Heq).
      exists y. split; [done|]. rewrite Heq.
      destruct acc as [a|]; simpl; ring. }
    destruct c; simpl; try done.
    + intros H. destruct (IH _ H) as (y & Hy & Heq).
      exists y. split; [done|]. rewrite Heq. ring.
    + by apply Hnum.
    + by apply Hnum.
    + by apply Hnum.
Qed.

Lemma paid_amounts (cols : list string) (hits : list (list value))
    (cells : list value) :
  mapM (fun row => cell cols row "amount") hits = Some cells ->
  (fold_right (fun c s => default 0 (numeric c) + s) 0 cells
   == fold_right (fun row acc => amount_of cols row + acc) 0 hits)%Q.
Proof.
  intros H%mapM_Some. induction H as [|row c hits cells Hc _ IH]; simpl.
  - reflexivity.
  - rewrite IH. unfold amount_of. rewrite Hc. reflexivity.
Qed.

End StatusFacts.

Section AggregateFacts.
Import Py Sql Db.
Variable rejects : Stmt -> Database -> option string.
Variable other : string -> Database -> string + (ResultSet * Database).

Lemma count_query_result (t : string) (c : Cond) (tbl : Table)
    (db db' : Database) (r : ResultSet) :
  db !! t = Some tbl ->
  sql_engine rejects other (SelectAgg CountStar t c) [] db = inr (r, db') ->
  r = mkResult ["count"]
        [[VInt (Z.of_nat (length
            (List.filter (fun row => is_true (eval_cond (columns tbl) row c))
               (rows tbl))))]].
Proof.
  intros Htbl. unfold sql_engine, select_agg.
  destruct (rejects _ _); [done|]. rewrite Htbl.
  destruct (negb _); [done|]. destruct (existsb _ _); [done|].
  by intros [= <- _].
Qed.

Lemma sum_query_result (t col : string) (c : Cond) (tbl : Table)
    (db db' : Database) (r : ResultSet) :
  db !! t = Some tbl ->
  sql_engine rejects other (SelectAgg (Sum col) t c) [] db = inr (r, db') ->
  exists cells v,
    mapM (fun row => cell (columns tbl) row col)
      (List.filter (fun row => is_true (eval_cond (columns tbl) row c))
         (rows tbl)) = Some cells /\
    sum_cells cells None = Some v /\
    r = mkResult ["sum"] [[v]].
Proof.
  intros Htbl. unfold sql_engine, select_agg.
  destruct (rejects _ _); [done|]. rewrite Htbl.
  destruct (negb _); [done|]. destruct (existsb _ _); [done|].
  destruct (mapM _ _) as [cells|]; [|done].
  destruct (sum_cells cells None) as [v|] eqn:Hsum; [|done].
  intros [= <- _]. by exists cells, v.
Qed.

(** What a non-empty result of the aggregator was computed from. *)
Lemma business_metrics_results (w w' : World) (m : gmap string value) :
  get_business_metrics (sql_engine rejects other) w = (Returned m, w') ->
  m <> ∅ ->
  exists r1 r2 r3 r4 r5 revenue,
    (exists db, sql_engine rejects other q_active_customers [] (working w)
                = inr (r1, db)) /\
    (exists db, sql_engine rejects other q_total_revenue [] (working w)
                = inr (r2, db)) /\
    (exists db, sql_engine rejects other q_low_stock_items [] (working w)
                = inr (r3, db)) /\
    (exists db, sql_engine rejects other q_total_employees [] (working w)
                = inr (r4, db)) /\
    (exists db, sql_engine rejects other q_active_projects [] (working w)
                = inr (r5, db)) /\
    float (scalar_or_zero r2) = Some revenue /\
    m = <["active_projects" := scalar_or_zero r5]>
        (<["total_employees" := scalar_or_zero r4]>
        (<["low_stock_items" := scalar_or_zero r3]>
        (<["total_revenue" := revenue]>
        (<["active_customers" := scalar_or_zero r1]> ∅)))).
Proof.
  intros Hrun Hne.
  rewrite (get_business_metrics_unfold _
             (metric_queries_read_only rejects other)) in Hrun.
  cbv zeta in Hrun.
  destruct (sql_engine rejects other q_active_customers [] _)
    as [?|[r1 ?]]; [by injection Hrun as <- _|].
  destruct (sql_engine rejects other q_total_revenue [] _)
    as [?|[r2 ?]]; [by injection Hrun as <- _|].
  destruct (float _) as [revenue|] eqn:Ef; [|by injection Hrun as <- _].
  destruct (sql_engine rejects other q_low_stock_items [] _)
    as [?|[r3 ?]]; [by injection Hrun as <- _|].
  destruct (sql_engine rejects other q_total_employees [] _)
    as [?|[r4 ?]]; [by injection Hrun as <- _|].
  destruct (sql_engine rejects other q_active_projects [] _)
    as [?|[r5 ?]]; [by injection Hrun as <- _|].
  injection Hrun as <- _.
  exists r1, r2, r3, r4, r5, revenue. repeat split; eauto.
Qed.
End AggregateFacts.

(** X8.  Whenever the aggregator reports its metrics, active_customers is
    the number of customers whose status is the text Active,
    total_employees the number of employees whose status is Active (others
    are not counted, whatever the name says), and active_projects the
    number of projects whose status is Planning or In Progress; a row with
    a NULL status counts nowhere. *)
Theorem status_count_metrics
    (rejects : Sql.Stmt -> Sql.Database -> option string)
    (other : string -> Sql.Database -> string + (Sql.ResultSet * Sql.Database))
    (w w' : Db.World) (customers employees projects : Sql.Table)
    (m : gmap string Py.value) :
  Db.working w !! "customers" = Some customers ->
  Db.working w !! "employees" = Some employees ->
  Db.working w !! "projects" = Some projects ->
  Db.get_business_metrics (Sql.sql_engine rejects other) w
  = (Py.Returned m, w') ->
  m <> ∅ ->
  m !! "active_customers"
  = Some (Py.VInt (count_rows (has_status ["Active"]) customers)) /\
  m !! "total_employees"
  = Some (Py.VInt (count_rows (has_status ["Active"]) employees)) /\
  m !! "active_projects"
  = Some (Py.VInt (count_rows (has_status ["Planning"; "In Progress"])
                     projects)).
Proof.
  intros Hc He Hp Hrun Hne.
  destruct (business_metrics_results rejects other w w' m Hrun Hne)
    as (r1 & r2 & r3 & r4 & r5 & revenue
        & [db1 E1] & _ & _ & [db4 E4] & [db5 E5] & _ & ->).
  apply (count_query_result _ _ _ _ _ _ _ _ Hc) in E1.
  apply (count_query_result _ _ _ _ _ _ _ _ He) in E4.
  apply (count_query_result _ _ _ _ _ _ _ _ Hp) in E5.
  subst r1 r4 r5. unfold scalar_or_zero, Sql.scalar. cbn [Sql.fetchall].
  rewrite !count_or_zero. unfold count_rows.
  rewrite (filter_ext _ _ (status_equals "Active" (Sql.columns customers))).
  rewrite (filter_ext _ _ (status_equals "Active" (Sql.columns employees))).
  rewrite (filter_ext _ _
             (status_among ["Planning"; "In Progress"] (Sql.columns projects))).
  repeat split; by simplify_map_eq.
Qed.

Lemma sample_db_tables :
  Db.working (Db.at_rest sample_db) !! "customers"
  = Some (status_table ["Active"; "Prospect"; "Active"]) /\
  Db.working (Db.at_rest sample_db) !! "employees"
  = Some (status_table ["Active"; "Active"; "Active"]) /\
  Db.working (Db.at_rest sample_db) !! "projects"
  = Some (status_table ["In Progress"; "Planning"; "Completed"]) /\
  Db.working (Db.at_rest sample_db) !! "invoices" = Some sample_invoices.
Proof. repeat split; vm_refl. Qed.

Lemma sample_active_customers :
  count_rows (has_status ["Active"])
    (status_table ["Active"; "Prospect"; "Active"]) = 2.
Proof. vm_refl. Qed.

Lemma status_count_metrics_witness :
  sample_metrics !! "active_customers"
  = Some (Py.VInt (count_rows (has_status ["Active"])
                     (status_table ["Active"; "Prospect"; "Active"]))) /\
  count_rows (has_status ["Active"])
    (status_table ["Active"; "Prospect"; "Active"]) = 2.
Proof.
  split; [|exact sample_active_customers].
  exact (proj1 (status_count_metrics never_rejects unsupported
                  (Db.at_rest sample_db) (Db.at_rest sample_db) _ _ _
                  sample_metrics
                  (proj1 sample_db_tables)
                  (proj1 (proj2 sample_db_tables))
                  (proj1 (proj2 (proj2 sample_db_tables)))
                  sample_metrics_run sample_metrics_nonempty)).
Defined.

(** X9.  Whenever the aggregator reports its metrics, total_revenue is a
    float, the sum of the amounts of the invoices whose status is the text
    Paid, NULL amounts adding nothing; it is 0.0 when no invoice is paid. *)
Theorem total_revenue_metric
    (rejects : Sql.Stmt -> Sql.Database -> option string)
    (other : string -> Sql.Database -> string + (Sql.ResultSet * Sql.Database))
    (w w' : Db.World) (invoices : Sql.Table) (m : gmap string Py.value) :
  Db.working w !! "invoices" = Some invoices ->
  Db.get_business_metrics (Sql.sql_engine rejects other) w
  = (Py.Returned m, w') ->
  m <> ∅ ->
  exists revenue : Q,
    m !! "total_revenue" = Some (Py.VFloat revenue) /\
    (revenue == paid_total invoices)%Q.
Proof.
  intros Hi Hrun Hne.
  destruct (business_metrics_results rejects other w w' m Hrun Hne)
    as (r1 & r2 & r3 & r4 & r5 & revenue
        & _ & [db2 E2] & _ & _ & _ & Hfloat & ->).
  destruct (sum_query_result _ _ _ _ _ _ _ _ _ Hi E2)
    as (cells & v & Hcells & Hsum & ->).
  unfold scalar_or_zero, Sql.scalar in Hfloat. cbn [Sql.fetchall] in Hfloat.
  destruct (sum_cells_float cells None v Hsum) as (x & Hx & Heq).
  rewrite Hx in Hfloat. injection Hfloat as <-.
  exists x. split; [by simplify_map_eq|].
  rewrite Heq. simpl. rewrite Qplus_0_l.
  rewrite (filter_ext _ _ (status_equals "Paid" (Sql.columns invoices)))
    in Hcells.
  by rewrite (paid_amounts _ _ _ Hcells).
Qed.

Lemma total_revenue_metric_witness :
  exists revenue : Q,
    sample_metrics !! "total_revenue" = Some (Py.VFloat revenue) /\
    (revenue == paid_total sample_invoices)%Q.
Proof.
  exact (total_revenue_metric never_rejects unsupported
           (Db.at_rest sample_db) (Db.at_rest sample_db) sample_invoices
           sample_metrics (proj2 (proj2 (proj2 sample_db_tables)))
           sample_metrics_run sample_metrics_nonempty).
Defined.

(* ===================================================================== *)
(** * Further properties of the administration pages *)
(* ===================================================================== *)

Section PagingFacts.
Import Py Sql Db.
Variable rejects : Stmt -> Database -> option string.
Variable other : string -> Database -> string + (ResultSet * Database).

(** A read the engine accepts: the slice, and the session as it was. *)
Lemma limited_read (t : string) (tbl : Table) (limit : LimitArg) (l : Limit)
    (w : World) :
  working w !! t = Some tbl ->
  rejects (SelectAll t (Some l)) (working w) = None ->
  limit_truthy limit = true -> limit_clause limit = Some l ->
  0 <= limit_rows l -> 0 <= default 0 (limit_offset l) ->
  get_table_data (sql_engine rejects other) t limit w
  = (Returned (mkFrame (columns tbl)
                 (take (Z.to_nat (limit_rows l))
                    (drop (Z.to_nat (default 0 (limit_offset l))) (rows tbl)))),
     w).
Proof.
  intros Htbl Hrej Htruthy Hclause Hrows Hoff.
  unfold get_table_data, try_except, bind, session_execute, table_query.
  rewrite Htruthy, Hclause. unfold sql_engine. rewrite Hrej.
  unfold select_all. rewrite Htbl. cbv zeta.
  destruct (Z.ltb_spec (limit_rows l) 0) as [?|_]; [lia|].
  destruct (Z.ltb_spec (default 0 (limit_offset l)) 0) as [?|_]; [lia|].
  unfold ret. by destruct w.
Qed.

(** The first [k] slices of width [s], laid end to end. *)
Lemma slices_take {A} (l : list A) (s k : nat) :
  concat (map (fun i => take s (drop (i * s) l)) (seq 0 k)) = take (k * s) l.
Proof.
  induction k as [|k IH]; [done|].
  rewrite seq_S, map_app, concat_app, IH. simpl. rewrite app_nil_r.
  rewrite take_take_drop. f_equal. lia.
Qed.
End PagingFacts.

(** X10.  [get_table_data] with a limit text of the form "s OFFSET k*s":
    for a positive width s, the reads for k = 0, 1, ..., n-1, laid end to
    end, are the table as soon as n*s reaches the number of its rows: every
    row is in one read, in the table's order, none is left out and none
    delivered twice.  A read leaves the session as it was. *)
Theorem limit_offset_reads_cover_table
    (rejects : Sql.Stmt -> Sql.Database -> option string)
    (other : string -> Sql.Database -> string + (Sql.ResultSet * Sql.Database))
    (table : string) (tbl : Sql.Table) (width : Z) (reads : nat)
    (w : Db.World) :
  0 < width ->
  Db.working w !! table = Some tbl ->
  (forall limit, rejects (Sql.SelectAll table limit) (Db.working w) = None) ->
  Z.of_nat (length (Sql.rows tbl)) <= Z.of_nat reads * width ->
  let read k :=
    Db.get_table_data (Sql.sql_engine rejects other) table
      (Db.LimitText width (Z.of_nat k * width)) w in
  concat (map (fun k => fetched_rows (fst (read k))) (seq 0 reads))
  = Sql.rows tbl /\
  forall k, snd (read k) = w.
Proof.
  intros Hs Htbl Hrej Hreads read.
  assert (Hread : forall k,
            read k
            = (Py.Returned
                 (Db.mkFrame (Sql.columns tbl)
                    (take (Z.to_nat width)
                       (drop (k * Z.to_nat width) (Sql.rows tbl)))), w)).
  { intros k. unfold read.
    rewrite (limited_read rejects other table tbl
               (Db.LimitText width (Z.of_nat k * width))
               (Sql.mkLimit width (Some (Z.of_nat k * width))) w Htbl (Hrej _));
      [|done|done|simpl; lia|simpl; nia].
    simpl.
    replace (Z.to_nat (Z.of_nat k * width)) with (k * Z.to_nat width)%nat
      by nia.
    reflexivity. }
  split.
  - erewrite map_ext; [|intros k; by rewrite Hread].
    simpl. rewrite slices_take. apply take_ge. nia.
  - intros k. by rewrite Hread.
Qed.

Lemma sample_inventory_accepted (limit : option Sql.Limit) :
  never_rejects (Sql.SelectAll "inventory" limit)
    (Db.working (Db.at_rest sample_db)) = None.
Proof. reflexivity. Qed.

Lemma limit_offset_reads_cover_table_witness :
  concat (map (fun k =>
                 fetched_rows
                   (fst (Db.get_table_data
                           (Sql.sql_engine never_rejects unsupported)
                           "inventory"
                           (Db.LimitText 2 (Z.of_nat k * 2))
                           (Db.at_rest sample_db))))
            (seq 0 2))
  = Sql.rows sample_inventory /\
  length (Sql.rows sample_inventory) = 3%nat.
Proof.
  split; [|reflexivity].
  exact (proj1 (limit_offset_reads_cover_table never_rejects unsupported
                  "inventory" sample_inventory 2 2 (Db.at_rest sample_db)
                  eq_refl sample_db_inventory sample_inventory_accepted
                  ltac:(simpl; lia))).
Defined.

(** X12.  [get_table_data] with a number as limit: a positive number
    bounds the rows to the first so many, a negative one is an error shown
    to the operator with an empty frame returned, and 0, which Python takes
    for no limit at all, returns every row of the table. *)
Theorem get_table_data_integer_limit
    (rejects : Sql.Stmt -> Sql.Database -> option string)
    (other : string -> Sql.Database -> string + (Sql.ResultSet * Sql.Database))
    (table : string) (tbl : Sql.Table) (n : Z) (w : Db.World) :
  Db.working w !! table = Some tbl ->
  (forall limit, rejects (Sql.SelectAll table limit) (Db.working w) = None) ->
  let result :=
    Db.get_table_data (Sql.sql_engine rejects other) table (Db.LimitInt n) w in
  (0 < n ->
     result = (Py.Returned (Db.mkFrame (Sql.columns tbl)
                              (take (Z.to_nat n) (Sql.rows tbl))), w)) /\
  (n = 0 ->
     result = (Py.Returned (Db.mkFrame (Sql.columns tbl) (Sql.rows tbl)), w)) /\
  (n < 0 ->
     fst result = Py.Returned Db.empty_frame /\
     Db.ui (snd result)
     = (Db.ui w ++ [Db.StError ("Error fetching data from " ++ table
                                ++ ": LIMIT must not be negative")])%list).
Proof.
  intros Htbl Hrej result. subst result. split; [|split].
  - intros Hn.
    rewrite (limited_read rejects other table tbl (Db.LimitInt n)
               (Sql.mkLimit n None) w Htbl (Hrej _)); simpl; try done; lia.
  - intros ->.
    unfold Db.get_table_data, Py.try_except, Py.bind, Db.session_execute,
      Db.table_query.
    simpl. unfold Sql.sql_engine. rewrite Hrej. unfold Sql.select_all.
    rewrite Htbl. unfold Py.ret. by destruct w.
  - intros Hn.
    unfold Db.get_table_data, Py.try_except, Py.bind, Db.session_execute,
      Db.table_query.
    simpl. destruct (Z.eqb_spec n 0); [lia|]. simpl.
    unfold Sql.sql_engine. rewrite Hrej. unfold Sql.select_all.
    rewrite Htbl. simpl. destruct (Z.ltb_spec n 0); [|lia]. done.
Qed.

Lemma get_table_data_integer_limit_witness :
  Db.get_table_data (Sql.sql_engine never_rejects unsupported) "inventory"
    (Db.LimitInt 0) (Db.at_rest sample_db)
  = (Py.Returned (Db.mkFrame (Sql.columns sample_inventory)
                    (Sql.rows sample_inventory)), Db.at_rest sample_db) /\
  length (Sql.rows sample_inventory) = 3%nat.
Proof.
  split; [|reflexivity].
  exact (proj1 (proj2 (get_table_data_integer_limit never_rejects unsupported
                  "inventory" sample_inventory 0 (Db.at_rest sample_db)
                  sample_db_inventory sample_inventory_accepted)) eq_refl).
Defined.

Section BackupDocument.
Import Py Sql Db Admin.
Variable rejects : Stmt -> Database -> option string.
Variable other : string -> Database -> string + (ResultSet * Database).
Variable str : value -> string.
Variable held : list string -> list (list value) -> list (list value).

(** Reading a whole table: the frame, and at most an error on display. *)
Lemma read_whole_table (t : string) (w : World) :
  exists shown,
    get_table_data (sql_engine rejects other) t LimitNone w
    = (Returned (table_frame rejects (working w) t),
       mkWorld (committed w) (working w) (ui w ++ shown)).
Proof.
  unfold get_table_data, try_except, bind, session_execute, table_query,
    table_frame.
  simpl. unfold select_all.
  destruct (rejects _ _) as [e|].
  { simpl. by eexists [_]. }
  destruct (working w !! t) as [tbl|]; simpl.
  - exists []. rewrite app_nil_r. done.
  - by eexists [_].
Qed.

(** The loop of the backup writes an entry for every table it is given and
    touches no other entry. *)
Lemma backup_entries (tables : list string) (acc : list (string * json))
    (w : World) :
  exists acc' shown,
    for_each tables
      (fun table backup_data =>
         try_except
           (let! df := get_table_data (sql_engine rejects other) table
                         LimitNone in
            ret (dict_set table (JArr (to_dict_records held df)) backup_data))
           (fun e =>
              do! st_error ("Error backing up " ++ table ++ ": " ++ e) in
              ret backup_data))
      acc w
    = (Returned acc', mkWorld (committed w) (working w) (ui w ++ shown)) /\
    (forall t, t ∈ tables ->
       dict_get t acc'
       = Some (JArr (to_dict_records held
                       (table_frame rejects (working w) t)))) /\
    (forall t, t ∉ tables -> dict_get t acc' = dict_get t acc).
Proof.
  revert acc w. induction tables as [|table tables IH]; intros acc w.
  - exists acc, []. rewrite app_nil_r. split; [by destruct w|].
    split; [by intros t ?%elem_of_nil|done].
  - match goal with
    | |- context [for_each (table :: tables) ?body acc w] =>
        change (for_each (table :: tables) body acc w)
          with (bind (body table acc) (for_each tables body) w)
    end.
    unfold bind at 1, try_except at 1, bind at 1.
    destruct (read_whole_table table w) as [shown1 ->]. unfold ret at 1.
    destruct (IH (dict_set table
                    (JArr (to_dict_records held
                             (table_frame rejects (working w) table))) acc)
                (mkWorld (committed w) (working w) (ui w ++ shown1)))
      as (acc' & shown2 & -> & Hin & Hout).
    simpl in *. exists acc', (shown1 ++ shown2)%list.
    split; [by rewrite app_assoc|]. split.
    + intros t [->|Ht]%elem_of_cons; [|by apply Hin].
      destruct (decide (table ∈ tables)) as [Hlater|Hlater]; [by apply Hin|].
      rewrite (Hout _ Hlater). apply dict_get_set_eq.
    + intros t [Hne Ht]%not_elem_of_cons.
      rewrite (Hout _ Ht). by apply dict_get_set_ne.
Qed.

Lemma backup_document (tables : list string) (w : World) :
  tables <> [] ->
  exists entries shown,
    show_database_backup (sql_engine rejects other) str held tables true
      None false w
    = (Returned (Some (dumps str (JObj entries))),
       mkWorld (committed w) (committed w)
         (ui w ++ shown
          ++ [StSuccess "Backup created successfully!";
              StWarning "⚠️ Restore will overwrite existing data!"])) /\
    (forall t, t ∈ tables ->
       dict_get t entries
       = Some (JArr (to_dict_records held
                       (table_frame rejects (committed w) t)))) /\
    (forall t, t ∉ tables -> dict_get t entries = None).
Proof.
  intros Hne. unfold show_database_backup, create_backup.
  destruct tables as [|b bs] eqn:E; [done|]. rewrite <- E in *.
  unfold bind at 1. unfold bind at 1, with_connection.
  destruct (backup_entries tables []
              (mkWorld (committed w) (committed w) (ui w)))
    as (entries & shown & -> & Hin & Hout).
  simpl in Hin.
  destruct entries as [|entry rest] eqn:Eentries.
  { assert (Hb : b ∈ tables) by (rewrite E; apply list_elem_of_here).
    by specialize (Hin b Hb). }
  rewrite <- Eentries in *. unfold bind, st_success, st_warning, ret. simpl.
  exists entries, shown.
  split; [rewrite Eentries; simpl; by rewrite <- !app_assoc|].
  split; [done|].
  intros t Ht. by rewrite (Hout t Ht).
Qed.
End BackupDocument.

(** X13.  A run of the backup page in which "Create Backup" is pressed on
    a selection that is not empty offers a document and shows that the
    backup was created.  The document has one entry for every selected
    table and no other; a table that does not exist is written down as an
    empty list; and when every selected table can be read, each entry
    holds the rows of its table as pandas holds them (given that pandas
    makes no rows of none).  The database is not changed. *)
Theorem backup_lists_every_table
    (rejects : Sql.Stmt -> Sql.Database -> option string)
    (other : string -> Sql.Database -> string + (Sql.ResultSet * Sql.Database))
    (str : Py.value -> string)
    (held : list string -> list (list Py.value) -> list (list Py.value))
    (tables : list string) (w : Db.World) :
  tables <> [] ->
  (forall cols, held cols [] = []) ->
  exists entries shown,
    Admin.show_database_backup (Sql.sql_engine rejects other) str held tables
      true None false w
    = (Py.Returned (Some (Admin.dumps str (Py.JObj entries))),
       Db.mkWorld (Db.committed w) (Db.committed w)
         (Db.ui w ++ shown
          ++ [Db.StSuccess "Backup created successfully!";
              Db.StWarning "⚠️ Restore will overwrite existing data!"])) /\
    (forall t, is_Some (Py.dict_get t entries) <-> t ∈ tables) /\
    (forall t, t ∈ tables -> Db.committed w !! t = None ->
       Py.dict_get t entries = Some (Py.JArr [])) /\
    ((forall t, t ∈ tables -> readable rejects (Db.committed w) t) ->
     forall t tbl, t ∈ tables -> Db.committed w !! t = Some tbl ->
       Py.dict_get t entries
       = Some (Py.JArr (Admin.to_dict_records held
                          (Db.mkFrame (Sql.columns tbl) (Sql.rows tbl))))).
Proof.
  intros Hne Hheld.
  destruct (backup_document rejects other str held tables w Hne)
    as (entries & shown & Hrun & Hin & Hout).
  exists entries, shown. split; [exact Hrun|]. split; [|split].
  - intros t. split.
    + intros Hsome. destruct (decide (t ∈ tables)) as [|Hnot]; [done|].
      rewrite (Hout t Hnot) in Hsome. by destruct Hsome.
    + intros Ht. by rewrite (Hin t Ht).
  - intros t Ht Hnone. rewrite (Hin t Ht). unfold table_frame.
    rewrite Hnone. unfold Admin.to_dict_records.
    destruct (rejects _ _); simpl; by rewrite Hheld.
  - intros Hreadable t tbl Ht Htbl. rewrite (Hin t Ht).
    destruct (Hreadable t Ht) as [Hrej _]. unfold table_frame.
    by rewrite Hrej, Htbl.
Qed.

Lemma sample_db_no_orders :
  Db.committed (Db.at_rest sample_db) !! "orders" = None.
Proof. vm_refl. Qed.

Lemma backup_lists_every_table_witness :
  exists entries shown,
    Admin.show_database_backup (Sql.sql_engine never_rejects unsupported)
      sample_str held_as_read ["orders"; "inventory"] true None false
      (Db.at_rest sample_db)
    = (Py.Returned (Some (Admin.dumps sample_str (Py.JObj entries))),
       Db.mkWorld sample_db sample_db
         (shown
          ++ [Db.StSuccess "Backup created successfully!";
              Db.StWarning "⚠️ Restore will overwrite existing data!"])) /\
    Py.dict_get "orders" entries = Some (Py.JArr []).
Proof.
  destruct (backup_lists_every_table never_rejects unsupported sample_str
              held_as_read ["orders"; "inventory"] (Db.at_rest sample_db))
    as (entries & shown & Hrun & _ & Hmissing & _); [done|done|].
  exists entries, shown. split; [exact Hrun|].
  apply Hmissing; [apply list_elem_of_here|exact sample_db_no_orders].
Defined.

(** X21.  A run of the administration page never gets past its first
    statement.  Whatever the engine, the database and the operator's
    choices, the expression [db.engine.text] raises, the page shows
    "Database connection error" with the advice to check the
    configuration, and that is all: no statement is sent, no page of rows
    is fetched, the database is not changed. *)
Theorem admin_page_always_refused (run : Sql.Engine)
    (str : Py.value -> string)
    (selectbox : list Py.value -> option Py.value) (size_index : nat)
    (number_input : Z -> Z -> Z)
    (summary : list (list Py.value) -> Py.M Db.World unit)
    (display : Py.value -> Db.DataFrame -> Py.M Db.World unit)
    (not_a_count : Py.value -> Py.M Db.World (option Db.DataFrame))
    (w : Db.World) :
  Admin.show_database_admin run str selectbox size_index number_input
    summary display not_a_count w
  = (Py.Returned None,
     Db.mkWorld (Db.committed w) (Db.committed w)
       (Db.ui w
        ++ [Db.StError
              "Database connection error: 'Engine' object has no attribute 'text'";
            Db.StInfo
              "Please check your database configuration and try again."])).
Proof.
  unfold Admin.show_database_admin, Db.with_connection, Py.try_except,
    Py.bind, Admin.engine_text, Py.raise, Db.st_error, Db.st_info, Py.ret.
  simpl. by rewrite <- app_assoc.
Qed.

(** X22.  A run of the backup page in which "Restore from Backup" is
    pressed (and therefore "Create Backup" is not) never reads the
    uploaded file.  Whatever the engine, the database and the file, also
    one that is no JSON at all, the name [json] is unbound, the run shows
    the warning of the page and "Error reading backup file", and nothing
    else happens: no statement is sent, the committed database and the
    open session stay as they were, and no table is reported. *)
Theorem restore_run_reads_no_file (run : Sql.Engine)
    (str : Py.value -> string)
    (held : list string -> list (list Py.value) -> list (list Py.value))
    (backup_tables : list string) (file : Admin.Upload) (w : Db.World) :
  Admin.show_database_backup run str held backup_tables false (Some file)
    true w
  = (Py.Returned None,
     Db.mkWorld (Db.committed w) (Db.working w)
       (Db.ui w
        ++ [Db.StWarning "⚠️ Restore will overwrite existing data!";
            Db.StError ("Error reading backup file: "
                        ++ Admin.unbound_local "json")])).
Proof.
  unfold Admin.show_database_backup, Py.bind, Py.ret, Db.st_warning.
  cbv beta iota.
  unfold Admin.restore_backup, Py.try_except, Py.bind, Admin.json_loads,
    Py.raise, Db.st_error.
  simpl. by rewrite <- app_assoc.
Qed.

Section SeedFacts.
Import Py Sql Db Seed.
Variable run : Engine.

Lemma run_all_app (a b : list (Stmt * list json)) (db : Database) :
  run_all run (a ++ b) db
  = match run_all run a db with
    | inl e => inl e
    | inr db' => run_all run b db'
    end.
Proof.
  revert db. induction a as [|[q params] a IH]; intros db; simpl; [done|].
  destruct (run q params db) as [e|[r db']]; [done|]. apply IH.
Qed.

(** One block of INSERTs: the session moves on statement by statement and
    stops at the first failure; nothing is committed, shown or printed. *)
Lemma insert_all_runs (query : string) (data : list (list value))
    (c wk : Database) (u : list UiEvent) (out : list string) :
  exists wk',
    insert_all run query data (mkProcess (mkWorld c wk u) out)
    = (match run_all run (statements query data) wk with
       | inr _ => Returned tt
       | inl e => Raised e
       end,
       mkProcess (mkWorld c wk' u) out) /\
    (forall db', run_all run (statements query data) wk = inr db' ->
       wk' = db').
Proof.
  revert wk. induction data as [|row data IH]; intros wk.
  - exists wk. split; [done|]. by intros db' [= <-].
  - unfold insert_all.
    match goal with
    | |- context [for_each (row :: data) ?body tt ?p] =>
        change (for_each (row :: data) body tt p)
          with (bind (body row tt) (for_each data body) p)
    end.
    unfold bind at 1 2, in_session, session_execute. simpl.
    destruct (run (Raw query) [JObj (named row)] wk) as [e|[r db1]]; simpl.
    + exists wk. split; [done|]. by intros.
    + destruct (IH db1) as (wk' & Hrun & Hwk). exists wk'. split; [|done].
      exact Hrun.
Qed.

Ltac seed_simpl :=
  cbn -[insert_all run_all sample_statements customers_query accounts_query
        inventory_query employees_query projects_query].

(** A failure: the handler rolls back and prints. *)
Ltac failed :=
  cbv beta iota zeta;
  unfold bind, in_session, session_rollback, print; cbv beta iota zeta;
  eexists; split; [reflexivity|]; split; [done|];
  unfold rolled_back; simpl; eauto.

(** [insert_sample_data], case by case. *)
Lemma insert_sample_data_cases (p : Process) :
  exists p',
    insert_sample_data run p = (Returned tt, p') /\
    ui (world p') = ui (world p) /\
    match run (Raw "SELECT COUNT(*) FROM customers") []
            (working (world p)) with
    | inl _ => rolled_back p p'
    | inr (result, db) =>
        match positive (scalar result) with
        | None => rolled_back p p'
        | Some true =>
            p' = mkProcess
                   (mkWorld (committed (world p)) db (ui (world p)))
                   (stdout p)
        | Some false =>
            match run_all run sample_statements db with
            | inl _ => rolled_back p p'
            | inr db' =>
                p' = mkProcess (mkWorld db' db' (ui (world p)))
                       (stdout p ++ ["Sample data inserted successfully"])
            end
        end
    end.
Proof.
  destruct p as [[c wk u] out].
  unfold insert_sample_data, try_except, bind at 1, in_session at 1,
    session_execute.
  seed_simpl.
  destruct (run (Raw "SELECT COUNT(*) FROM customers") [] wk)
    as [e|[result db]]; seed_simpl.
  { eexists. split; [reflexivity|]. split; [done|].
    unfold rolled_back. seed_simpl. eauto. }
  unfold bind at 1, gt_zero.
  destruct (positive (scalar result)) as [[|]|]; seed_simpl.
  { eexists. split; [reflexivity|]. done. }
  2:{ eexists. split; [reflexivity|]. split; [done|].
      unfold rolled_back. seed_simpl. eauto. }
  unfold sample_statements.
  rewrite run_all_app.
  unfold bind at 1.
  destruct (insert_all_runs customers_query customers_data c db u out)
    as (wk1 & -> & Hwk1).
  destruct (run_all run (statements customers_query customers_data) db)
    as [e|db1].
  { failed. }
  rewrite (Hwk1 db1 eq_refl). clear Hwk1 wk1. cbv beta iota zeta.
  rewrite run_all_app.
  unfold bind at 1.
  destruct (insert_all_runs accounts_query accounts_data c db1 u out)
    as (wk2 & -> & Hwk2).
  destruct (run_all run (statements accounts_query accounts_data) db1)
    as [e|db2].
  { failed. }
  rewrite (Hwk2 db2 eq_refl). clear Hwk2 wk2. cbv beta iota zeta.
  rewrite run_all_app.
  unfold bind at 1.
  destruct (insert_all_runs inventory_query inventory_data c db2 u out)
    as (wk3 & -> & Hwk3).
  destruct (run_all run (statements inventory_query inventory_data) db2)
    as [e|db3].
  { failed. }
  rewrite (Hwk3 db3 eq_refl). clear Hwk3 wk3. cbv beta iota zeta.
  rewrite run_all_app.
  unfold bind at 1.
  destruct (insert_all_runs employees_query employees_data c db3 u out)
    as (wk4 & -> & Hwk4).
  destruct (run_all run (statements employees_query employees_data) db3)
    as [e|db4].
  { failed. }
  rewrite (Hwk4 db4 eq_refl). clear Hwk4 wk4. cbv beta iota zeta.
  unfold bind at 1.
  destruct (insert_all_runs projects_query projects_data c db4 u out)
    as (wk5 & -> & Hwk5).
  destruct (run_all run (statements projects_query projects_data) db4)
    as [e|db5].
  { failed. }
  rewrite (Hwk5 db5 eq_refl). clear Hwk5 wk5. cbv beta iota zeta.
  unfold bind, in_session, session_commit, print. cbv beta iota zeta.
  simpl world. simpl stdout.
  eexists. split; [reflexivity|]. done.
Qed.
End SeedFacts.

(** X18.  The sample data is stored whole or not at all.  Whatever the
    engine answers, [insert_sample_data] returns without raising and
    without a message on the page, and afterwards either the committed
    database is the one before the call, or the count of the customers was
    not positive, each of the 20 INSERT statements ran, one after the other
    in the order of the source, and their joint result is committed. *)
Theorem insert_sample_data_all_or_nothing (run : Sql.Engine)
    (p : Seed.Process) :
  exists p',
    Seed.insert_sample_data run p = (Py.Returned tt, p') /\
    Db.ui (Seed.world p') = Db.ui (Seed.world p) /\
    (Db.committed (Seed.world p') = Db.committed (Seed.world p) \/
     exists result db db',
       run (Sql.Raw "SELECT COUNT(*) FROM customers") []
         (Db.working (Seed.world p)) = inr (result, db) /\
       Seed.positive (Sql.scalar result) = Some false /\
       run_all run sample_statements db = inr db' /\
       length sample_statements = 20%nat /\
       Db.committed (Seed.world p') = db' /\
       Db.working (Seed.world p') = db' /\
       Seed.stdout p'
       = (Seed.stdout p ++ ["Sample data inserted successfully"])%list).
Proof.
  destruct (insert_sample_data_cases run p) as (p' & Hrun & Hui & Hcases).
  exists p'. split; [exact Hrun|]. split; [exact Hui|].
  destruct (run (Sql.Raw "SELECT COUNT(*) FROM customers") [] _)
    as [e|[result db]]; [left; apply Hcases|].
  destruct (Seed.positive (Sql.scalar result)) as [[|]|] eqn:Hpos;
    [left; by subst p'| |left; apply Hcases].
  destruct (run_all run sample_statements db) as [e|db'] eqn:Hall;
    [left; apply Hcases|].
  right. exists result, db, db'. subst p'. by repeat split.
Qed.

(** X19.  When the count of the customers is positive the sample data is
    taken to exist: no INSERT is issued, nothing is committed, rolled back
    or printed, and the session stands where the count left it.  When the
    count fails, or its result cannot be compared with 0, or an INSERT
    fails, the session is rolled back, which also discards what was pending
    before the call, and the error is printed. *)
Theorem insert_sample_data_guard (run : Sql.Engine) (p : Seed.Process)
    (result : Sql.ResultSet) (db : Sql.Database) :
  run (Sql.Raw "SELECT COUNT(*) FROM customers") [] (Db.working (Seed.world p))
  = inr (result, db) ->
  (Seed.positive (Sql.scalar result) = Some true ->
     Seed.insert_sample_data run p
     = (Py.Returned tt,
        Seed.mkProcess
          (Db.mkWorld (Db.committed (Seed.world p)) db (Db.ui (Seed.world p)))
          (Seed.stdout p))) /\
  (Seed.positive (Sql.scalar result) = None \/
   (Seed.positive (Sql.scalar result) = Some false /\
    exists e, run_all run sample_statements db = inl e) ->
   rolled_back p (snd (Seed.insert_sample_data run p))).
Proof.
  intros Hcount.
  destruct (insert_sample_data_cases run p) as (p' & Hrun & Hui & Hcases).
  rewrite Hcount in Hcases. rewrite Hrun. cbn [snd]. split.
  - intros Hpos. rewrite Hpos in Hcases. by subst p'.
  - intros [Hpos|[Hpos [e Hall]]]; rewrite Hpos in Hcases; [done|].
    by rewrite Hall in Hcases.
Qed.

Lemma insert_sample_data_guard_witness :
  Seed.insert_sample_data counting_engine
    (Seed.mkProcess (Db.at_rest sample_db) [])
  = (Py.Returned tt, Seed.mkProcess (Db.at_rest sample_db) []).
Proof.
  exact (proj1 (insert_sample_data_guard counting_engine
                  (Seed.mkProcess (Db.at_rest sample_db) [])
                  (Sql.mkResult ["count"] [[Py.VInt 3]]) sample_db eq_refl)
           eq_refl).
Defined.

(* ===================================================================== *)
(** * The overview's inventory card *)
(* ===================================================================== *)

(** X20.  The overview shows the low-stock alert only when all five
    metric queries succeed: if any of them fails, also one that has nothing
    to do with the inventory, the card reads "Inventory Status: Good",
    whatever the stock. *)
Theorem stock_alert_needs_every_metric
    (rejects : Sql.Stmt -> Sql.Database -> option string)
    (other : string -> Sql.Database -> string + (Sql.ResultSet * Sql.Database))
    (str : Py.value -> string) (w : Db.World) (q : Sql.Stmt) (e : string) :
  q ∈ Db.metric_queries ->
  Sql.sql_engine rejects other q [] (Db.committed w) = inl e ->
  exists m w',
    Dashboard.load_metrics (Sql.sql_engine rejects other) w
    = (Py.Returned m, w') /\
    Dashboard.stock_card str m
    = Some (Dashboard.Metric "Inventory Status" "Good" "✅ OK").
Proof.
  intros Hq He. unfold Dashboard.load_metrics, Db.with_connection.
  rewrite (get_business_metrics_unfold _
             (metric_queries_read_only rejects other)).
  cbv zeta. cbn [Db.working].
  apply metric_query_cases in Hq.
  destruct (Sql.sql_engine rejects other Db.q_active_customers [] _)
    as [?|[r1 ?]] eqn:E1; [by eexists _, _|].
  destruct (Sql.sql_engine rejects other Db.q_total_revenue [] _)
    as [?|[r2 ?]] eqn:E2; [by eexists _, _|].
  destruct (Py.float _) as [revenue|]; [|by eexists _, _].
  destruct (Sql.sql_engine rejects other Db.q_low_stock_items [] _)
    as [?|[r3 ?]] eqn:E3; [by eexists _, _|].
  destruct (Sql.sql_engine rejects other Db.q_total_employees [] _)
    as [?|[r4 ?]] eqn:E4; [by eexists _, _|].
  destruct (Sql.sql_engine rejects other Db.q_active_projects [] _)
    as [?|[r5 ?]] eqn:E5; [by eexists _, _|].
  destruct Hq as [->|[->|[->|[->| ->]]]]; congruence.
Qed.

Lemma sample_low_stock : count_rows low_stock sample_inventory = 2.
Proof. vm_refl. Qed.

Lemma stock_alert_needs_every_metric_witness :
  (exists m w',
     Dashboard.load_metrics (Sql.sql_engine never_rejects unsupported)
       (Db.at_rest db_without_invoices)
     = (Py.Returned m, w') /\
     Dashboard.stock_card sample_str m
     = Some (Dashboard.Metric "Inventory Status" "Good" "✅ OK")) /\
  count_rows low_stock sample_inventory = 2.
Proof.
  split; [|exact sample_low_stock].
  apply (stock_alert_needs_every_metric never_rejects unsupported sample_str
           (Db.at_rest db_without_invoices) Db.q_total_revenue
           "relation invoices does not exist").
  - apply metric_query_elem. right. left. reflexivity.
  - exact invoices_query_fails.
Defined.
